(** * MCPToolboxAgent: the Bedrock / MCP Toolbox bridge of [python-agent/agent.py]

    A shallow embedding of the class [MCPToolboxAgent]: the tool-catalog
    conversion [_format_tools_for_bedrock], the tool invoker [_execute_tool],
    the conversation loop [chat] and [clear_history].

    The two remote collaborators (the Bedrock runtime client held in
    [self.bedrock] and the MCP client session held in [self.session]) are
    state machines the agent talks to: each call takes the collaborator's
    current state and yields either a value or a raised exception, together
    with the collaborator's next state.  Python results are the sum
    [PyResult]; the [while True] loop of [chat] runs on fuel.  Writing to
    standard output ([print]) is not part of the model. *)

From Stdlib Require Import String Ascii List Bool Arith Lia ZArith.
Import ListNotations.
Open Scope string_scope.
Open Scope list_scope.

Local Set Warnings "-register-all".

(** ** Python values *)

(** Structured values (the [dict]s used as tool arguments and as JSON
    schemas). *)
Inductive json : Type :=
| JNull
| JBool (b : bool)
| JNum (z : Z)
| JStr (s : string)
| JArr (items : list json)
| JObj (fields : list (string * json)).

(** An instance of [Exception], which is what both [try] blocks of the
    agent handle; [str(e)] is what an f-string interpolates.  Raised values
    range over such instances: [KeyboardInterrupt], [SystemExit] and task
    cancellation, which derive from [BaseException] only, are outside the
    model. *)
Inductive Exception : Type :=
| Exc (type_name : string) (message : string).

Definition str_exc (e : Exception) : string :=
  match e with Exc _ message => message end.

(** The outcome of evaluating a Python expression or call. *)
Inductive PyResult (A : Type) : Type :=
| Return (a : A)
| Raise (e : Exception).
Arguments Return {A} a.
Arguments Raise {A} e.

(** Truthiness of a [str] and of a [list]. *)
Definition str_truthy (s : string) : bool :=
  match s with EmptyString => false | String _ _ => true end.

Definition list_truthy {A : Type} (l : list A) : bool :=
  match l with [] => false | _ :: _ => true end.

(** [x or ""] for [x : str | None]. *)
Definition or_empty (x : option string) : string :=
  match x with
  | Some s => if str_truthy s then s else ""
  | None => ""
  end.

(** Concatenation of a list of strings, in order. *)
Definition join_text (parts : list string) : string :=
  fold_right String.append "" parts.

(** ** MCP side: tools and call results *)

(** [mcp.types.Tool]: [description] may be [None]. *)
Record Tool : Type := mkTool {
  tool_name : string;
  tool_description : option string;
  tool_inputSchema : json
}.

(** Items of [CallToolResult.content].  Only [TextContent] has an attribute
    [text]. *)
Inductive Content : Type :=
| TextContent (text : string)
| ImageContent (data : string) (mimeType : string)
| AudioContent (data : string) (mimeType : string)
| EmbeddedResource (resource : json).

Record CallToolResult : Type := mkCallToolResult {
  result_content : list Content;
  result_isError : bool
}.

(** [hasattr(content, 'text')] together with [content.text]. *)
Definition content_text (c : Content) : option string :=
  match c with
  | TextContent text => Some text
  | _ => None
  end.

Definition hasattr_text (c : Content) : bool :=
  match content_text c with Some _ => true | None => false end.

(** ** Bedrock side: messages, requests and responses *)

(** [{"toolSpec": {"name": .., "description": .., "inputSchema": {"json": ..}}}] *)
Record ToolSpec : Type := mkToolSpec {
  spec_name : string;
  spec_description : string;
  spec_inputSchema_json : json
}.

(** The dict returned by [_format_tools_for_bedrock]: it has the key
    ["tools"] or no key at all. *)
Record ToolConfig : Type := mkToolConfig {
  config_tools : option (list ToolSpec)
}.

(** The empty dict. *)
Definition empty_config : ToolConfig := {| config_tools := None |}.

(** Truthiness of that dict: non-empty. *)
Definition config_truthy (c : ToolConfig) : bool :=
  match config_tools c with Some _ => true | None => false end.

Record ToolUse : Type := mkToolUse {
  toolUseId : string;
  tool_use_name : string;
  tool_use_input : json
}.

Inductive ToolResultContent : Type :=
| ResultText (text : string)
| ResultJson (value : json).

Record ToolResult : Type := mkToolResult {
  result_toolUseId : string;
  result_blocks : list ToolResultContent
}.

(** A content block of a message: a dict with exactly one of the keys
    ["text"], ["toolUse"], ["toolResult"], or one of the other members of
    the service's union (image, document, ...). *)
Inductive ContentBlock : Type :=
| BlockText (text : string)
| BlockToolUse (tool_use : ToolUse)
| BlockToolResult (tool_result : ToolResult)
| BlockOther (kind : string).

(** A message dict; either key may be missing.  [{}] is [empty_message]. *)
Record Message : Type := mkMessage {
  role : option string;
  content : option (list ContentBlock)
}.

Definition empty_message : Message := {| role := None; content := None |}.

(** Truthiness of a message dict: non-empty. *)
Definition message_truthy (m : Message) : bool :=
  match role m, content m with
  | None, None => false
  | _, _ => true
  end.

(** [message.get("content", [])] *)
Definition get_content (m : Message) : list ContentBlock :=
  match content m with Some blocks => blocks | None => [] end.

(** [response["output"]], a dict that may lack ["message"]. *)
Record Output : Type := mkOutput {
  output_message : option Message
}.

Record Response : Type := mkResponse {
  stopReason : option string;
  output : option Output
}.

(** [request_params]: ["toolConfig"] is set only in some requests. *)
Record Request : Type := mkRequest {
  modelId : string;
  request_messages : list Message;
  toolConfig : option ToolConfig
}.

(** ** The remote collaborators *)

(** The model service behind [self.bedrock]: a state machine whose
    operation [converse] stands for [self.bedrock.converse] applied to the
    keyword arguments [request_params]. *)
Class BedrockClient : Type := {
  MS : Type;
  converse : Request -> MS -> PyResult Response * MS
}.

(** The tool server behind [self.session]: [call_tool] stands for
    [self.session.call_tool(tool_name, tool_input)], and [str_result] for
    [str(result)] on what it returns. *)
Class ToolSession : Type := {
  TS : Type;
  call_tool : string -> json -> TS -> PyResult CallToolResult * TS;
  str_result : CallToolResult -> string
}.

(** ** The agent *)

Section AgentModel.

Context {bedrock_client : BedrockClient} {tool_session : ToolSession}.

(** The fields of [self].  The last two are bookkeeping of the model and
    not attributes of the Python object: [service_log] records every
    request handed to the model service with its outcome, oldest first,
    and [tool_rounds] counts the passes through the tool-execution branch
    of [chat]. *)
Record MCPToolboxAgent : Type := mkAgent {
  mcp_url : string;
  model_id : string;
  region : string;
  session : TS;
  bedrock : MS;
  tools : list Tool;
  messages : list Message;
  service_log : list (Request * PyResult Response);
  tool_rounds : nat
}.

Definition set_session (ts : TS) (self : MCPToolboxAgent) : MCPToolboxAgent :=
  mkAgent (mcp_url self) (model_id self) (region self) ts (bedrock self)
          (tools self) (messages self) (service_log self) (tool_rounds self).

Definition set_bedrock (ms : MS) (self : MCPToolboxAgent) : MCPToolboxAgent :=
  mkAgent (mcp_url self) (model_id self) (region self) (session self) ms
          (tools self) (messages self) (service_log self) (tool_rounds self).

Definition set_messages (msgs : list Message) (self : MCPToolboxAgent)
  : MCPToolboxAgent :=
  mkAgent (mcp_url self) (model_id self) (region self) (session self)
          (bedrock self) (tools self) msgs (service_log self)
          (tool_rounds self).

Definition record_call (entry : Request * PyResult Response)
           (self : MCPToolboxAgent) : MCPToolboxAgent :=
  mkAgent (mcp_url self) (model_id self) (region self) (session self)
          (bedrock self) (tools self) (messages self)
          (service_log self ++ [entry]) (tool_rounds self).

Definition record_round (self : MCPToolboxAgent) : MCPToolboxAgent :=
  mkAgent (mcp_url self) (model_id self) (region self) (session self)
          (bedrock self) (tools self) (messages self) (service_log self)
          (S (tool_rounds self)).

(** *** Methods as state transformers that may raise *)

Definition M (A : Type) : Type :=
  MCPToolboxAgent -> PyResult A * MCPToolboxAgent.

Definition ret {A : Type} (a : A) : M A := fun self => (Return a, self).

Definition bind {A B : Type} (m : M A) (k : A -> M B) : M B :=
  fun self =>
    match m self with
    | (Return a, self') => k a self'
    | (Raise e, self') => (Raise e, self')
    end.

(** [try: body  except Exception as e: handler(e)] *)
Definition try_except {A : Type} (body : M A) (handler : Exception -> M A)
  : M A :=
  fun self =>
    match body self with
    | (Return a, self') => (Return a, self')
    | (Raise e, self') => handler e self'
    end.

(** A [try] whose outcome is inspected by the code after it. *)
Definition attempt {A : Type} (body : M A) : M (PyResult A) :=
  fun self => let (r, self') := body self in (Return r, self').

Notation "x <- m ;; k" := (bind m (fun x => k))
  (at level 61, m at next level, right associativity).
Notation "m ;;; k" := (bind m (fun _ => k))
  (at level 61, right associativity).

(** [self.messages.append(m)] *)
Definition messages_append (m : Message) : M unit :=
  fun self => (Return tt, set_messages (messages self ++ [m]) self).

Definition session_call_tool (tool_name : string) (tool_input : json)
  : M CallToolResult :=
  fun self =>
    let (r, ts) := call_tool tool_name tool_input (session self) in
    (r, set_session ts self).

Definition bedrock_converse (request_params : Request) : M Response :=
  fun self =>
    let (r, ms) := converse request_params (bedrock self) in
    (r, record_call (request_params, r) (set_bedrock ms self)).

(** *** [_format_tools_for_bedrock] *)

Definition tool_to_spec (tool : Tool) : ToolSpec :=
  {| spec_name := tool_name tool;
     spec_description := or_empty (tool_description tool);
     spec_inputSchema_json := tool_inputSchema tool |}.

Definition _format_tools_for_bedrock (self : MCPToolboxAgent) : ToolConfig :=
  let tool_specs :=
    fold_left (fun tool_specs tool => tool_specs ++ [tool_to_spec tool])
              (tools self) [] in
  if list_truthy tool_specs
  then {| config_tools := Some tool_specs |}
  else empty_config.

(** *** [_execute_tool] *)

(** [for content in result.content: if hasattr(content, 'text'): return
    content.text]; [None] when the loop falls through. *)
Fixpoint first_text (items : list Content) : option string :=
  match items with
  | [] => None
  | item :: rest =>
      if hasattr_text item then content_text item else first_text rest
  end.

Definition _execute_tool (tool_name : string) (tool_input : json) : M string :=
  try_except
    (result <- session_call_tool tool_name tool_input ;;
     match (if list_truthy (result_content result)
            then first_text (result_content result)
            else None) with
     | Some text => ret text
     | None => ret (str_result result)
     end)
    (fun e => ret ("Error executing tool: " ++ str_exc e)%string).

(** *** [chat] *)

Definition user_text_message (user_message : string) : Message :=
  {| role := Some "user"; content := Some [BlockText user_message] |}.

Definition tool_results_message (tool_results : list ContentBlock) : Message :=
  {| role := Some "user"; content := Some tool_results |}.

Definition tool_result_block (tool_use_id result : string) : ContentBlock :=
  BlockToolResult {| result_toolUseId := tool_use_id;
                     result_blocks := [ResultText result] |}.

(** [request_params] as built at the top of the loop. *)
Definition build_request (tool_config : ToolConfig) (self : MCPToolboxAgent)
  : Request :=
  {| modelId := model_id self;
     request_messages := messages self;
     toolConfig := if config_truthy tool_config then Some tool_config
                   else None |}.

(** [response.get("output", {}).get("message", {})] *)
Definition response_message (response : Response) : Message :=
  match output response with
  | Some out =>
      match output_message out with
      | Some m => m
      | None => empty_message
      end
  | None => empty_message
  end.

(** [stop_reason == "tool_use"] for [stop_reason = response.get("stopReason")] *)
Definition is_tool_use (stop_reason : option string) : bool :=
  match stop_reason with
  | Some s => String.eqb s "tool_use"
  | None => false
  end.

(** The loop over the assistant content that executes the requested tools,
    started with the results gathered so far. *)
Fixpoint execute_tool_uses (blocks : list ContentBlock)
         (tool_results : list ContentBlock) : M (list ContentBlock) :=
  match blocks with
  | [] => ret tool_results
  | BlockToolUse tool_use :: rest =>
      result <- _execute_tool (tool_use_name tool_use) (tool_use_input tool_use) ;;
      execute_tool_uses rest
        (tool_results ++ [tool_result_block (toolUseId tool_use) result])
  | _ :: rest => execute_tool_uses rest tool_results
  end.

(** The loop that builds [final_response]. *)
Fixpoint collect_text (blocks : list ContentBlock) (final_response : string)
  : string :=
  match blocks with
  | [] => final_response
  | BlockText text :: rest =>
      if str_truthy text
      then collect_text rest (final_response ++ text)%string
      else collect_text rest final_response
  | _ :: rest => collect_text rest final_response
  end.

(** How one pass through the body of [while True] ends. *)
Inductive LoopStep : Type :=
| Continue
| Break (returned : string).

Definition chat_iteration (tool_config : ToolConfig) : M LoopStep :=
  fun self =>
    let request_params := build_request tool_config self in
    (outcome <- attempt (bedrock_converse request_params) ;;
     match outcome with
     | Raise e => ret (Break ("Bedrock error: " ++ str_exc e)%string)
     | Return response =>
         let stop_reason := stopReason response in
         let assistant_message := response_message response in
         (if message_truthy assistant_message
          then messages_append assistant_message
          else ret tt) ;;;
         if is_tool_use stop_reason
         then
           tool_results <- execute_tool_uses (get_content assistant_message) [] ;;
           messages_append (tool_results_message tool_results) ;;;
           (fun self' => (Return Continue, record_round self'))
         else
           ret (Break (collect_text (get_content assistant_message) ""))
     end) self.

(** [while True]; [None] when the fuel does not reach a [return]. *)
Fixpoint chat_loop (fuel : nat) (tool_config : ToolConfig)
         (self : MCPToolboxAgent)
  : option (PyResult string * MCPToolboxAgent) :=
  match fuel with
  | O => None
  | S fuel' =>
      match chat_iteration tool_config self with
      | (Raise e, self') => Some (Raise e, self')
      | (Return (Break returned), self') => Some (Return returned, self')
      | (Return Continue, self') => chat_loop fuel' tool_config self'
      end
  end.

Definition chat (fuel : nat) (user_message : string) (self : MCPToolboxAgent)
  : option (PyResult string * MCPToolboxAgent) :=
  let self1 := set_messages (messages self ++ [user_text_message user_message]) self in
  let tool_config := _format_tools_for_bedrock self1 in
  chat_loop fuel tool_config self1.

(** *** [clear_history] *)

Definition clear_history (self : MCPToolboxAgent) : MCPToolboxAgent :=
  set_messages [] self.

(** ** Vocabulary of the statements *)

(** The identifiers of the tool-use requests of a content list, in order. *)
Fixpoint tool_use_ids (blocks : list ContentBlock) : list string :=
  match blocks with
  | [] => []
  | BlockToolUse tool_use :: rest => toolUseId tool_use :: tool_use_ids rest
  | _ :: rest => tool_use_ids rest
  end.

(** The identifiers the tool results of a content list refer to, in order. *)
Fixpoint tool_result_ids (blocks : list ContentBlock) : list string :=
  match blocks with
  | [] => []
  | BlockToolResult tool_result :: rest =>
      result_toolUseId tool_result :: tool_result_ids rest
  | _ :: rest => tool_result_ids rest
  end.

Definition is_tool_result (block : ContentBlock) : Prop :=
  match block with BlockToolResult _ => True | _ => False end.

(** The texts of the text blocks of a content list, in order. *)
Fixpoint text_blocks (blocks : list ContentBlock) : list string :=
  match blocks with
  | [] => []
  | BlockText text :: rest => text :: text_blocks rest
  | _ :: rest => text_blocks rest
  end.

(** What the loop appends for the assistant message of a response. *)
Definition appended_assistant (m : Message) : list Message :=
  if message_truthy m then [m] else [].

(** [n] completed tool-execution rounds as they show in the history: per
    round the assistant message (when one was appended) and
    then one user message made of the results for its requests. *)
Inductive ToolRounds : nat -> list Message -> Prop :=
| rounds_nil : ToolRounds 0 []
| rounds_cons (n : nat) (assistant : Message)
              (tool_results : list ContentBlock) (rest : list Message) :
    Forall is_tool_result tool_results ->
    tool_result_ids tool_results = tool_use_ids (get_content assistant) ->
    ToolRounds n rest ->
    ToolRounds (S n)
      (appended_assistant assistant
       ++ {| role := Some "user"; content := Some tool_results |} :: rest).

(** Only the tool-server state differs between two agent states. *)
Definition same_but_session (self self' : MCPToolboxAgent) : Prop :=
  self' = set_session (session self') self.

(** The state after a successful request: the service has moved on, the
    exchange is logged, and the assistant message is appended when it is a
    non-empty dict. *)
Definition after_response (tool_config : ToolConfig) (self : MCPToolboxAgent)
           (response : Response) (ms : MS) : MCPToolboxAgent :=
  set_messages (messages self ++ appended_assistant (response_message response))
    (record_call (build_request tool_config self, Return response)
       (set_bedrock ms self)).

(** *** Runs of the loop *)

(** The runs of [while True] that reach a [return]: the request fails, the
    model stops, or a tool round is followed by a run from the next state. *)
Inductive LoopRun (tool_config : ToolConfig)
  : MCPToolboxAgent -> PyResult string -> MCPToolboxAgent -> Prop :=
| run_error self e ms :
    converse (build_request tool_config self) (bedrock self) = (Raise e, ms) ->
    LoopRun tool_config self
      (Return ("Bedrock error: " ++ str_exc e)%string)
      (record_call (build_request tool_config self, Raise e) (set_bedrock ms self))
| run_done self response ms :
    converse (build_request tool_config self) (bedrock self) = (Return response, ms) ->
    is_tool_use (stopReason response) = false ->
    LoopRun tool_config self
      (Return (collect_text (get_content (response_message response)) ""))
      (after_response tool_config self response ms)
| run_round self response ms tool_results self1 r self' :
    converse (build_request tool_config self) (bedrock self) = (Return response, ms) ->
    is_tool_use (stopReason response) = true ->
    execute_tool_uses (get_content (response_message response)) []
      (after_response tool_config self response ms) = (Return tool_results, self1) ->
    LoopRun tool_config
      (record_round
         (set_messages (messages self1 ++ [tool_results_message tool_results]) self1))
      r self' ->
    LoopRun tool_config self r self'.

(** An exchange of the log in which the model asked for tools. *)
Definition tool_use_exchange (entry : Request * PyResult Response) : Prop :=
  exists response,
    snd entry = Return response /\ is_tool_use (stopReason response) = true.

(** A logged request was built by the loop started in state [self]. *)
Definition sent_by_loop (tool_config : ToolConfig) (self : MCPToolboxAgent)
           (entry : Request * PyResult Response) : Prop :=
  modelId (fst entry) = model_id self
  /\ toolConfig (fst entry)
     = (if config_truthy tool_config then Some tool_config else None)
  /\ exists more, request_messages (fst entry) = messages self ++ more.

(** How the last exchange of a run decides the result and the history;
    [rounds] are the messages added by the rounds before it. *)
Definition final_exchange (self : MCPToolboxAgent) (rounds : list Message)
           (req : Request) (outcome : PyResult Response)
           (r : PyResult string) (self' : MCPToolboxAgent) : Prop :=
  request_messages req = messages self ++ rounds
  /\ match outcome with
     | Raise e =>
         r = Return ("Bedrock error: " ++ str_exc e)%string
         /\ messages self' = messages self ++ rounds
     | Return response =>
         is_tool_use (stopReason response) = false
         /\ r = Return (join_text (text_blocks (get_content (response_message response))))
         /\ messages self'
            = messages self ++ rounds ++ appended_assistant (response_message response)
     end.

(** *** Model services that ask for tools a known number of times *)


(** [chat] is the loop entered with the user message appended. *)
Definition chat_entry (user_message : string) (self : MCPToolboxAgent)
  : MCPToolboxAgent :=
  set_messages (messages self ++ [user_text_message user_message]) self.

End AgentModel.

(** ** The process around the agent: [__init__], [connect], [disconnect], [main] *)

(** *** Console, environment and strings *)

Definition newline : string := String (ascii_of_nat 10) EmptyString.

(** What the process does on its console and to its connection, oldest
    first: [print(text)], [input(prompt)] with the line it returned ([None]
    when it raised [EOFError]), and [exit_stack.aclose()]. *)
Inductive Event : Type :=
| Print (text : string)
| Input (prompt : string) (line : option string)
| Aclose.

(** [os.environ.get(key, default)] on the environment as a list of
    bindings. *)
Fixpoint environ_get (environ : list (string * string)) (key default : string)
  : string :=
  match environ with
  | [] => default
  | (k, v) :: rest => if String.eqb k key then v else environ_get rest key default
  end.

(** Strings are sequences of code points below 256.  On these,
    [str.isspace] holds of the code points 9 to 13, 28 to 32, 133 and 160,
    and [str.lower] moves the capital letters 65 to 90, 192 to 214 and 216
    to 222 up by 32. *)
Definition isspace (c : ascii) : bool :=
  let n := nat_of_ascii c in
  (Nat.leb 9 n && Nat.leb n 13) || (Nat.leb 28 n && Nat.leb n 32)
  || Nat.eqb n 133 || Nat.eqb n 160.

Fixpoint lstrip (s : string) : string :=
  match s with
  | EmptyString => EmptyString
  | String c rest => if isspace c then lstrip rest else s
  end.

Fixpoint rstrip (s : string) : string :=
  match s with
  | EmptyString => EmptyString
  | String c rest =>
      match rstrip rest with
      | EmptyString => if isspace c then EmptyString else String c EmptyString
      | kept => String c kept
      end
  end.

(** [s.strip()] *)
Definition strip (s : string) : string := rstrip (lstrip s).

Definition lower_char (c : ascii) : ascii :=
  let n := nat_of_ascii c in
  if (Nat.leb 65 n && Nat.leb n 90) || (Nat.leb 192 n && Nat.leb n 214)
     || (Nat.leb 216 n && Nat.leb n 222)
  then ascii_of_nat (n + 32)
  else c.

(** [s.lower()] *)
Fixpoint lower (s : string) : string :=
  match s with
  | EmptyString => EmptyString
  | String c rest => String (lower_char c) (lower rest)
  end.

(** *** What the process is given from outside *)

(** The libraries the process calls to set itself up and to shut down:
    [boto3.client("bedrock-runtime", region_name=region)], entering
    [sse_client(url=...)] and [ClientSession( *streams)] on the exit stack,
    [session.initialize()], [session.list_tools()] (of which only [.tools]
    is used), [exit_stack.aclose()] once both contexts are entered, and
    the rendering of a list of names inside an f-string. *)
Class Platform {bedrock_client : BedrockClient} {tool_session : ToolSession}
  : Type := {
  boto3_client : string -> PyResult MS;
  Streams : Type;
  sse_client : string -> PyResult Streams;
  client_session : Streams -> PyResult TS;
  initialize : TS -> PyResult unit * TS;
  list_tools : TS -> PyResult (list Tool) * TS;
  aclose : TS -> PyResult unit;
  repr_names : list string -> string
}.

(** How the process ends: [main] returns, [sys.exit(code)], or an exception
    leaves [main]. *)
Inductive ExitStatus : Type :=
| Completed
| SystemExit (code : Z)
| Uncaught (e : Exception).

Section ProcessModel.

Context {bedrock_client : BedrockClient} {tool_session : ToolSession}
        {platform : Platform}.

(** *** [__init__] *)

(** The object [__init__] leaves: no session yet, no tools, no messages. *)
Record NewAgent : Type := mkNewAgent {
  new_mcp_url : string;
  new_model_id : string;
  new_region : string;
  new_bedrock : MS
}.

(** [None] for an argument left to its default. *)
Definition __init__ (mcp_url model_id region : option string)
  : PyResult NewAgent :=
  let mcp_url :=
    match mcp_url with Some v => v | None => "http://localhost:5001/mcp/sse" end in
  let model_id :=
    match model_id with
    | Some v => v
    | None => "anthropic.claude-sonnet-4-5-20250929-v1:0"
    end in
  let region := match region with Some v => v | None => "us-east-1" end in
  match boto3_client region with
  | Raise e => Raise e
  | Return client =>
      Return {| new_mcp_url := mcp_url;
                new_model_id := model_id;
                new_region := region;
                new_bedrock := client |}
  end.

(** *** [connect] and [disconnect] *)

Definition connect (self : NewAgent) (console : list Event)
  : PyResult MCPToolboxAgent * list Event :=
  let console :=
    console ++ [Print ("Connecting to MCP server at " ++ new_mcp_url self
                       ++ "...")%string] in
  match sse_client (new_mcp_url self) with
  | Raise e => (Raise e, console)
  | Return streams =>
      match client_session streams with
      | Raise e => (Raise e, console)
      | Return session0 =>
          match initialize session0 with
          | (Raise e, _) => (Raise e, console)
          | (Return _, session1) =>
              match list_tools session1 with
              | (Raise e, _) => (Raise e, console)
              | (Return listed, session2) =>
                  (Return (mkAgent (new_mcp_url self) (new_model_id self)
                             (new_region self) session2 (new_bedrock self)
                             listed [] [] 0),
                   console
                   ++ [Print ("Connected! Available tools: "
                              ++ repr_names (map tool_name listed))%string])
              end
          end
      end
  end.

(** On a connected agent, the only one [main] disconnects. *)
Definition disconnect (self : MCPToolboxAgent) (console : list Event)
  : PyResult unit * list Event :=
  (aclose (session self), console ++ [Aclose]).

(** *** [chat] with what it prints *)

(** The methods above on the agent together with the console. *)
Definition MP (A : Type) : Type :=
  MCPToolboxAgent * list Event -> PyResult A * (MCPToolboxAgent * list Event).

Definition retP {A : Type} (a : A) : MP A := fun st => (Return a, st).

Definition bindP {A B : Type} (m : MP A) (k : A -> MP B) : MP B :=
  fun st =>
    match m st with
    | (Return a, st') => k a st'
    | (Raise e, st') => (Raise e, st')
    end.

Definition lift {A : Type} (m : M A) : MP A :=
  fun st => let (r, self') := m (fst st) in (r, (self', snd st)).

Definition print (text : string) : MP unit :=
  fun st => (Return tt, (fst st, snd st ++ [Print text])).

Notation "x <- m ;; k" := (bindP m (fun x => k))
  (at level 61, m at next level, right associativity).
Notation "m ;;; k" := (bindP m (fun _ => k))
  (at level 61, right associativity).

Fixpoint execute_tool_uses_printing (blocks : list ContentBlock)
         (tool_results : list ContentBlock) : MP (list ContentBlock) :=
  match blocks with
  | [] => retP tool_results
  | BlockToolUse tool_use :: rest =>
      print ("  [Executing tool: " ++ tool_use_name tool_use ++ "]")%string ;;;
      result <- lift (_execute_tool (tool_use_name tool_use)
                        (tool_use_input tool_use)) ;;
      execute_tool_uses_printing rest
        (tool_results ++ [tool_result_block (toolUseId tool_use) result])
  | _ :: rest => execute_tool_uses_printing rest tool_results
  end.

Definition chat_iteration_printing (tool_config : ToolConfig) : MP LoopStep :=
  fun st =>
    let request_params := build_request tool_config (fst st) in
    (outcome <- lift (attempt (bedrock_converse request_params)) ;;
     match outcome with
     | Raise e => retP (Break ("Bedrock error: " ++ str_exc e)%string)
     | Return response =>
         let stop_reason := stopReason response in
         let assistant_message := response_message response in
         lift (if message_truthy assistant_message
               then messages_append assistant_message
               else ret tt) ;;;
         if is_tool_use stop_reason
         then
           tool_results <-
             execute_tool_uses_printing (get_content assistant_message) [] ;;
           lift (messages_append (tool_results_message tool_results)) ;;;
           lift (fun self' => (Return Continue, record_round self'))
         else
           retP (Break (collect_text (get_content assistant_message) ""))
     end) st.

Fixpoint chat_loop_printing (fuel : nat) (tool_config : ToolConfig)
         (st : MCPToolboxAgent * list Event)
  : option (PyResult string * (MCPToolboxAgent * list Event)) :=
  match fuel with
  | O => None
  | S fuel' =>
      match chat_iteration_printing tool_config st with
      | (Raise e, st') => Some (Raise e, st')
      | (Return (Break returned), st') => Some (Return returned, st')
      | (Return Continue, st') => chat_loop_printing fuel' tool_config st'
      end
  end.

Definition chat_printing (fuel : nat) (user_message : string)
           (st : MCPToolboxAgent * list Event)
  : option (PyResult string * (MCPToolboxAgent * list Event)) :=
  let self1 :=
    set_messages (messages (fst st) ++ [user_text_message user_message]) (fst st) in
  let tool_config := _format_tools_for_bedrock self1 in
  chat_loop_printing fuel tool_config (self1, snd st).

(** *** [main] *)

(** The [while True] of [main] on the lines the console still holds; each
    call of [chat] gets [fuel].  The result is how the [try] block ends, the
    agent and the console, and the lines not read.  The console is a list
    of lines followed by the end of input: [input] returns the next line or
    raises [EOFError], and [print] returns.  A console that fails in another
    way (a closed pipe, an interrupt) is outside the model. *)
Fixpoint main_loop (fuel : nat) (stdin : list string)
         (st : MCPToolboxAgent * list Event)
  : option (PyResult unit * (MCPToolboxAgent * list Event) * list string) :=
  match stdin with
  | [] => Some (Return tt, (fst st, snd st ++ [Input "You: " None]), [])
  | line :: rest =>
      let st := (fst st, snd st ++ [Input "You: " (Some line)]) in
      let user_input := strip line in
      if negb (str_truthy user_input) then main_loop fuel rest st
      else if String.eqb (lower user_input) "quit" then Some (Return tt, st, rest)
      else if String.eqb (lower user_input) "clear" then
        main_loop fuel rest
          (clear_history (fst st),
           snd st ++ [Print ("Conversation history cleared." ++ newline)%string])
      else
        match chat_printing fuel user_input st with
        | None => None
        | Some (Raise e, st') => Some (Raise e, st', rest)
        | Some (Return response, st') =>
            main_loop fuel rest
              (fst st',
               snd st' ++ [Print (newline ++ "Assistant: " ++ response
                                  ++ newline)%string])
        end
  end.

(** What is left when the process ends. *)
Record Outcome : Type := mkOutcome {
  status : ExitStatus;
  console : list Event;
  unread : list string;
  agent : option MCPToolboxAgent
}.

Definition main (fuel : nat) (environ : list (string * string))
           (stdin : list string) : option Outcome :=
  let mcp_url := environ_get environ "MCP_URL" "http://localhost:5001/mcp/sse" in
  let model_id :=
    environ_get environ "BEDROCK_MODEL_ID"
      "anthropic.claude-sonnet-4-5-20250929-v1:0" in
  let region := environ_get environ "AWS_REGION" "us-east-1" in
  match __init__ (Some mcp_url) (Some model_id) (Some region) with
  | Raise e => Some (mkOutcome (Uncaught e) [] stdin None)
  | Return new_agent =>
      match connect new_agent [] with
      | (Raise e, printed) =>
          Some (mkOutcome (SystemExit 1)
                  (printed
                   ++ [Print ("Failed to connect to MCP server: " ++ str_exc e)%string;
                       Print "Make sure the MCP Toolbox server is running."])
                  stdin None)
      | (Return connected, printed) =>
          let printed :=
            printed
            ++ [Print (newline ++ "Database Agent Ready!")%string;
                Print ("Type your questions about the database. Type 'quit' to exit, 'clear' to reset history." ++ newline)%string] in
          match main_loop fuel stdin (connected, printed) with
          | None => None
          | Some (ended, (self, printed), rest) =>
              match disconnect self printed with
              | (Raise e, printed) =>
                  Some (mkOutcome (Uncaught e) printed rest (Some self))
              | (Return _, printed) =>
                  Some (mkOutcome
                          (match ended with
                           | Return _ => Completed
                           | Raise e => Uncaught e
                           end)
                          (printed ++ [Print "Goodbye!"]) rest (Some self))
              end
          end
      end
  end.

(** *** Vocabulary of the further statements *)

(** The tool-use requests of a content list, in order. *)
Fixpoint tool_uses (blocks : list ContentBlock) : list ToolUse :=
  match blocks with
  | [] => []
  | BlockToolUse tool_use :: rest => tool_use :: tool_uses rest
  | _ :: rest => tool_uses rest
  end.

(** The tool server after it was called for each of the requests in turn,
    and the text it gave for each. *)
Fixpoint call_each (requests : list ToolUse) (ts : TS) : list string * TS :=
  match requests with
  | [] => ([], ts)
  | request :: rest =>
      let (outcome, ts1) :=
        call_tool (tool_use_name request) (tool_use_input request) ts in
      let text :=
        match outcome with
        | Return result =>
            match first_text (result_content result) with
            | Some text => text
            | None => str_result result
            end
        | Raise e => ("Error executing tool: " ++ str_exc e)%string
        end in
      let (texts, ts2) := call_each rest ts1 in
      (text :: texts, ts2)
  end.

(** A set of service states from which every request is answered with
    stop reason ["tool_use"] and which the service never leaves. *)
Definition always_tool_use (states : MS -> Prop) : Prop :=
  forall ms, states ms ->
  forall req : Request,
  exists response ms',
    converse req ms = (Return response, ms')
    /\ is_tool_use (stopReason response) = true
    /\ states ms'.

(** The requests of a log carry a history that grows round by round:
    each request carries [history], and after a response the next request
    carries in addition the assistant message (when appended) and a user
    message of results for its tool-use requests. *)
Fixpoint chained (history : list Message)
         (log : list (Request * PyResult Response)) : Prop :=
  match log with
  | [] => True
  | (req, outcome) :: later =>
      request_messages req = history
      /\ match later with
         | [] => True
         | _ :: _ =>
             exists response tool_results,
               outcome = Return response
               /\ is_tool_use (stopReason response) = true
               /\ Forall is_tool_result tool_results
               /\ tool_result_ids tool_results
                  = tool_use_ids (get_content (response_message response))
               /\ chained (history
                           ++ appended_assistant (response_message response)
                           ++ [tool_results_message tool_results]) later
         end
  end.

(** The lines of the console that are questions: neither blank nor one of
    the two commands. *)
Definition is_blank (line : string) : bool := negb (str_truthy (strip line)).

Definition is_quit (line : string) : bool := String.eqb (lower (strip line)) "quit".

Definition is_clear (line : string) : bool := String.eqb (lower (strip line)) "clear".

Definition is_print (event : Event) : Prop :=
  match event with Print _ => True | _ => False end.

(** The console without what [input] contributed. *)
Definition printed_only (events : list Event) : list Event :=
  filter (fun event => match event with Input _ _ => false | _ => true end) events.

(** The lines [chat] prints for the tool-use requests of a content list,
    and for an exchange with the model service: those of its response when
    the stop reason is ["tool_use"], none otherwise. *)
Definition executing_lines (blocks : list ContentBlock) : list Event :=
  map (fun tool_use =>
         Print ("  [Executing tool: " ++ tool_use_name tool_use ++ "]")%string)
      (tool_uses blocks).

Definition exchange_lines (entry : Request * PyResult Response) : list Event :=
  match snd entry with
  | Return response =>
      if is_tool_use (stopReason response)
      then executing_lines (get_content (response_message response))
      else []
  | Raise _ => []
  end.

(** The questions put since the last [clear], given those put before the
    lines are read: blank lines count for nothing, [quit] ends the
    reading, [clear] forgets. *)
Fixpoint questions_kept (lines : list string) (kept : list string)
  : list string :=
  match lines with
  | [] => kept
  | line :: rest =>
      if is_blank line then questions_kept rest kept
      else if is_quit line then kept
      else if is_clear line then questions_kept rest []
      else questions_kept rest (kept ++ [strip line])
  end.

(** A history made of the given questions, each followed by the messages
    of its tool rounds and at most one closing assistant message. *)
Inductive Conversation : list string -> list Message -> Prop :=
| conversation_nil : Conversation [] []
| conversation_cons (question : string) (n : nat)
                    (rounds closing : list Message)
                    (questions : list string) (rest : list Message) :
    ToolRounds n rounds ->
    (closing = [] \/ exists assistant, closing = [assistant]) ->
    Conversation questions rest ->
    Conversation (question :: questions)
                 (user_text_message question :: rounds ++ closing ++ rest).

(** The object [main] constructs from the environment, given the client
    [boto3] made. *)
Definition configured (environ : list (string * string)) (client : MS)
  : NewAgent :=
  {| new_mcp_url := environ_get environ "MCP_URL" "http://localhost:5001/mcp/sse";
     new_model_id :=
       environ_get environ "BEDROCK_MODEL_ID"
         "anthropic.claude-sonnet-4-5-20250929-v1:0";
     new_region := environ_get environ "AWS_REGION" "us-east-1";
     new_bedrock := client |}.

Definition nonblank (line : string) : bool := negb (is_blank line).

(** A line that is no question. *)
Definition is_command (line : string) : bool :=
  is_blank line || is_quit line || is_clear line.

(** What the loop of [main] and [main] itself leave, apart from the
    prompts and the blank lines: how they end, the agent, what was
    printed, and the lines not read that are not blank. *)
Definition loop_view
           (result : PyResult unit * (MCPToolboxAgent * list Event) * list string)
  : PyResult unit * MCPToolboxAgent * list Event * list string :=
  match result with
  | (ended, (self, events), rest) =>
      (ended, self, printed_only events, filter nonblank rest)
  end.

Definition outcome_view (outcome : Outcome)
  : ExitStatus * option MCPToolboxAgent * list Event * list string :=
  (status outcome, agent outcome, printed_only (console outcome),
   filter nonblank (unread outcome)).

(** The outcome with further lines left unread. *)
Definition leaving (after : list string) (outcome : Outcome) : Outcome :=
  mkOutcome (status outcome) (console outcome) (unread outcome ++ after)
            (agent outcome).

End ProcessModel.

(** ** A scripted conversation *)

(** A model service that plays back a script of outcomes, one per request,
    and refuses the connection once the script is over. *)
Definition scripted_bedrock : BedrockClient :=
  {| MS := list (PyResult Response);
     converse := fun _ script =>
       match script with
       | outcome :: rest => (outcome, rest)
       | [] => (Raise (Exc "EndpointConnectionError"
                         "Could not connect to the endpoint URL"), [])
       end |}.

(** A tool server with three tools; its state counts the calls. *)
Definition toolbox_call_tool (tool_name : string) (tool_input : json)
           (calls : nat) : PyResult CallToolResult * nat :=
  (if String.eqb tool_name "query_sql"
   then Return {| result_content := [TextContent "42"];
                  result_isError := false |}
   else if String.eqb tool_name "list_tables"
   then Return {| result_content :=
                    [ImageContent "iVBORw0KGgo=" "image/png";
                     TextContent "users"; TextContent "orders"];
                  result_isError := false |}
   else if String.eqb tool_name "ping"
   then Return {| result_content := []; result_isError := false |}
   else Raise (Exc "McpError" ("Unknown tool: " ++ tool_name)%string),
   S calls).

Definition toolbox_str_result (result : CallToolResult) : string :=
  if result_isError result
  then "meta=None content=[] isError=True"
  else "meta=None content=[] isError=False".

Definition toolbox_session : ToolSession :=
  {| TS := nat;
     call_tool := toolbox_call_tool;
     str_result := toolbox_str_result |}.

Definition toolbox_tools : list Tool :=
  [ {| tool_name := "query_sql";
       tool_description := Some "Run a SQL query";
       tool_inputSchema :=
         JObj [("type", JStr "object");
               ("properties", JObj [("query", JObj [("type", JStr "string")])])] |};
    {| tool_name := "list_tables";
       tool_description := None;
       tool_inputSchema := JObj [("type", JStr "object")] |} ].

(** An agent connected to these two, with the given script, tool catalog
    and history. *)
Definition scripted_agent (script : list (PyResult Response))
           (catalog : list Tool) (history : list Message)
  : @MCPToolboxAgent scripted_bedrock toolbox_session :=
  @mkAgent scripted_bedrock toolbox_session
    "http://localhost:5001/mcp/sse"
    "anthropic.claude-sonnet-4-5-20250929-v1:0"
    "us-east-1"
    0 script catalog history [] 0.

Definition count_rows : ToolUse :=
  {| toolUseId := "t1";
     tool_use_name := "query_sql";
     tool_use_input := JObj [("query", JStr "SELECT COUNT(*) FROM X")] |}.

Definition drop_table : ToolUse :=
  {| toolUseId := "t2";
     tool_use_name := "drop_table";
     tool_use_input := JObj [("table", JStr "X")] |}.

Definition list_tables : ToolUse :=
  {| toolUseId := "t3";
     tool_use_name := "list_tables";
     tool_use_input := JObj [] |}.

Definition assistant_says (stop_reason : string) (blocks : list ContentBlock)
  : Response :=
  {| stopReason := Some stop_reason;
     output := Some {| output_message :=
                         Some {| role := Some "assistant";
                                 content := Some blocks |} |} |}.

Definition first_response : Response :=
  assistant_says "tool_use" [BlockText "Let me check."; BlockToolUse count_rows].

Definition second_response : Response :=
  assistant_says "tool_use" [BlockToolUse drop_table; BlockToolUse list_tables].

Definition third_response : Response :=
  assistant_says "end_turn"
    [BlockText "There are "; BlockOther "image"; BlockText "42 rows."].

(** A successful response without ["output"]. *)
Definition silent_response : Response :=
  {| stopReason := Some "end_turn"; output := None |}.

Definition throttled : Exception :=
  Exc "ThrottlingException" "Too many requests, please wait before trying again.".

Definition three_step_script : list (PyResult Response) :=
  [Return first_response; Return second_response; Return third_response].

Definition earlier_history : list Message :=
  [ {| role := Some "user"; content := Some [BlockText "hello"] |};
    {| role := Some "assistant"; content := Some [BlockText "Hi!"] |} ].

(** The agent with the tool catalog, about to ask its first question. *)
Definition asking_agent : @MCPToolboxAgent scripted_bedrock toolbox_session :=
  chat_entry "How many rows in table X?"
    (scripted_agent three_step_script toolbox_tools []).

(** The same agent when the model service is about to ask for two tools,
    one of them unknown to the tool server. *)
Definition second_round_agent : @MCPToolboxAgent scripted_bedrock toolbox_session :=
  scripted_agent [Return second_response; Return third_response] toolbox_tools
    earlier_history.

(** An agent without tools whose next response carries no message. *)
Definition silent_agent : @MCPToolboxAgent scripted_bedrock toolbox_session :=
  scripted_agent [Return silent_response] [] earlier_history.

(** A successful response whose message is the empty dict, and one whose
    assistant message has no content block; an agent for each. *)
Definition hollow_response : Response :=
  {| stopReason := Some "end_turn";
     output := Some {| output_message := Some empty_message |} |}.

Definition contentless_response : Response := assistant_says "end_turn" [].

Definition hollow_agent : @MCPToolboxAgent scripted_bedrock toolbox_session :=
  scripted_agent [Return hollow_response] [] earlier_history.

Definition contentless_agent : @MCPToolboxAgent scripted_bedrock toolbox_session :=
  scripted_agent [Return contentless_response] [] earlier_history.





(** An agent whose model service throttles the next request, and one that
    is throttled after a first tool round. *)
Definition throttled_agent : @MCPToolboxAgent scripted_bedrock toolbox_session :=
  scripted_agent [Raise throttled] [] earlier_history.

Definition throttled_later_agent
  : @MCPToolboxAgent scripted_bedrock toolbox_session :=
  scripted_agent [Return first_response; Raise throttled] toolbox_tools
    earlier_history.

(** An agent whose model service answers at once. *)
Definition answering_agent : @MCPToolboxAgent scripted_bedrock toolbox_session :=
  scripted_agent [Return third_response] toolbox_tools earlier_history.

(** A service that asks for the same tool whatever it is sent. *)
Definition insistent_bedrock : BedrockClient :=
  {| MS := unit;
     converse := fun _ _ => (Return first_response, tt) |}.

Definition insistent_agent : @MCPToolboxAgent insistent_bedrock toolbox_session :=
  @mkAgent insistent_bedrock toolbox_session
    "http://localhost:5001/mcp/sse"
    "anthropic.claude-sonnet-4-5-20250929-v1:0"
    "us-east-1"
    0 tt toolbox_tools [] [] 0.

(** A response cut short by the token limit while it was asking for a
    tool, and a response that claims tool use without asking for any. *)
Definition cut_short_response : Response :=
  assistant_says "max_tokens" [BlockText "Let me"; BlockToolUse count_rows].

Definition empty_handed_response : Response :=
  assistant_says "tool_use" [BlockText "One moment."].

Definition cut_short_agent : @MCPToolboxAgent scripted_bedrock toolbox_session :=
  scripted_agent [Return cut_short_response] toolbox_tools earlier_history.

Definition empty_handed_agent : @MCPToolboxAgent scripted_bedrock toolbox_session :=
  scripted_agent [Return empty_handed_response; Return third_response]
    toolbox_tools earlier_history.

(** The names of a list as Python shows them, for names without quotes or
    backslashes. *)
Definition quoted_names (names : list string) : string :=
  ("[" ++ String.concat ", " (map (fun name => "'" ++ name ++ "'") names) ++ "]")%string.

(** A machine on which the tool server listens at the default address
    only, and the model service plays the given script. *)
Definition scripted_platform (script : list (PyResult Response))
  : @Platform scripted_bedrock toolbox_session :=
  @Build_Platform scripted_bedrock toolbox_session
    (fun _ => Return script)
    unit
    (fun url =>
       if String.eqb url "http://localhost:5001/mcp/sse"
       then Return tt
       else Raise (Exc "ConnectError" "All connection attempts failed"))
    (fun _ => Return 0)
    (fun ts => (Return tt, ts))
    (fun ts => (Return toolbox_tools, ts))
    (fun _ => Return tt)
    quoted_names.

Definition tab : string := String (ascii_of_nat 9) EmptyString.

(** What a user types: a blank line, a question, the two commands in
    capitals and with spaces around them, and a line after [quit]. *)
Definition typed_lines : list string :=
  [ ("  " ++ tab)%string;
    "  How many rows in table X? ";
    " CLEAR ";
    (tab ++ "Quit")%string;
    "never read" ].

(** The process on that machine. *)
Definition scripted_main (script : list (PyResult Response)) (fuel : nat)
           (environ : list (string * string)) (stdin : list string)
  : option (@Outcome scripted_bedrock toolbox_session) :=
  @main scripted_bedrock toolbox_session (scripted_platform script)
        fuel environ stdin.

(** The same machine with a connection that cannot be closed. *)
Definition close_failure : Exception :=
  Exc "RuntimeError"
      "Attempted to exit cancel scope in a different task than it was entered in".

Definition unclosable_platform (script : list (PyResult Response))
  : @Platform scripted_bedrock toolbox_session :=
  @Build_Platform scripted_bedrock toolbox_session
    (fun _ => Return script)
    unit
    (fun _ => Return tt)
    (fun _ => Return 0)
    (fun ts => (Return tt, ts))
    (fun ts => (Return toolbox_tools, ts))
    (fun _ => Raise close_failure)
    quoted_names.

(** An environment that points to a tool server elsewhere, and one that
    names another model. *)
Definition elsewhere : list (string * string) :=
  [("MCP_URL", "http://elsewhere:5001/mcp/sse")].

Definition other_model : list (string * string) :=
  [("BEDROCK_MODEL_ID", "anthropic.claude-3-haiku-20240307-v1:0")].

(** Lines that are no questions. *)
Definition command_lines : list string :=
  [ ""; " Clear"; ("  " ++ tab)%string; "QUIT" ].

(** ** Facts about the model *)

Section AgentFacts.

Context {bedrock_client : BedrockClient} {tool_session : ToolSession}.

(** *** Strings and lists *)

Lemma string_app_nil_r (s : string) : (s ++ "")%string = s.
Proof. induction s as [|c s IH]; simpl; [reflexivity | now rewrite IH]. Qed.

Lemma string_app_assoc (a b c : string) :
  ((a ++ b) ++ c)%string = (a ++ (b ++ c))%string.
Proof. induction a as [|x a IH]; simpl; [reflexivity | now rewrite IH]. Qed.

Lemma fold_specs_map (l : list Tool) (acc : list ToolSpec) :
  fold_left (fun tool_specs tool => tool_specs ++ [tool_to_spec tool]) l acc
  = acc ++ map tool_to_spec l.
Proof.
  revert acc; induction l as [|t l IH]; intros acc; simpl.
  - now rewrite app_nil_r.
  - rewrite IH, <- app_assoc. reflexivity.
Qed.

(** *** The tool invoker and the tool loop *)

Lemma set_messages_same (self : MCPToolboxAgent) :
  set_messages (messages self) self = self.
Proof. destruct self; reflexivity. Qed.

Lemma same_but_session_refl (self : MCPToolboxAgent) :
  same_but_session self self.
Proof. destruct self; reflexivity. Qed.

Lemma same_but_session_trans (a b c : MCPToolboxAgent) :
  same_but_session a b -> same_but_session b c -> same_but_session a c.
Proof.
  unfold same_but_session; intros Hab Hbc.
  rewrite Hbc at 1. rewrite Hab at 1. destruct a; reflexivity.
Qed.

(** [_execute_tool] by the outcome of the call it wraps. *)
Lemma execute_tool_raise tool_name tool_input self e ts :
  call_tool tool_name tool_input (session self) = (Raise e, ts) ->
  _execute_tool tool_name tool_input self
  = (Return ("Error executing tool: " ++ str_exc e)%string, set_session ts self).
Proof.
  intros H. unfold _execute_tool, try_except, bind, session_call_tool.
  rewrite H. reflexivity.
Qed.

Lemma execute_tool_return tool_name tool_input self result ts :
  call_tool tool_name tool_input (session self) = (Return result, ts) ->
  _execute_tool tool_name tool_input self
  = (Return (match first_text (result_content result) with
             | Some text => text
             | None => str_result result
             end), set_session ts self).
Proof.
  intros H. unfold _execute_tool, try_except, bind, session_call_tool.
  rewrite H.
  destruct (result_content result) as [|c cs] eqn:E; simpl; [reflexivity|].
  destruct (if hasattr_text c then content_text c else first_text cs);
    reflexivity.
Qed.

(** [_execute_tool] always returns a string and touches the session only. *)
Lemma execute_tool_total tool_name tool_input self :
  exists text ts,
    _execute_tool tool_name tool_input self = (Return text, set_session ts self).
Proof.
  destruct (call_tool tool_name tool_input (session self)) as [[result|e] ts] eqn:E.
  - eexists _, ts. eapply execute_tool_return; exact E.
  - eexists _, ts. eapply execute_tool_raise; exact E.
Qed.

Lemma tool_result_ids_app (l1 l2 : list ContentBlock) :
  tool_result_ids (l1 ++ l2) = tool_result_ids l1 ++ tool_result_ids l2.
Proof.
  induction l1 as [|b l1 IH]; simpl; [reflexivity|].
  destruct b; simpl; now rewrite ?IH.
Qed.

(** The tool loop never raises; it adds one result per request, in order,
    each carrying the identifier of its request. *)
Lemma execute_tool_uses_spec (blocks : list ContentBlock) :
  forall (acc : list ContentBlock) (self : MCPToolboxAgent),
  exists results self',
    execute_tool_uses blocks acc self = (Return (acc ++ results), self')
    /\ same_but_session self self'
    /\ Forall is_tool_result results
    /\ tool_result_ids results = tool_use_ids blocks.
Proof.
  induction blocks as [|b blocks IH]; intros acc self.
  - exists [], self. simpl. unfold ret. rewrite app_nil_r.
    repeat split; auto using same_but_session_refl.
  - destruct b as [text|tu|tr|kind]; simpl;
      try (destruct (IH acc self) as (results & self' & H1 & H2 & H3 & H4);
           exists results, self'; now repeat split).
    destruct (execute_tool_total (tool_use_name tu) (tool_use_input tu) self)
      as (text & ts & Hexec).
    unfold bind. rewrite Hexec.
    destruct (IH (acc ++ [tool_result_block (toolUseId tu) text])
                 (set_session ts self))
      as (results & self' & H1 & H2 & H3 & H4).
    exists (tool_result_block (toolUseId tu) text :: results), self'.
    repeat split.
    + rewrite H1, <- app_assoc. reflexivity.
    + eapply same_but_session_trans; [|exact H2].
      destruct self; reflexivity.
    + constructor; [exact I | exact H3].
    + simpl. now rewrite H4.
Qed.

Lemma collect_text_join (blocks : list ContentBlock) :
  forall acc : string,
    collect_text blocks acc = (acc ++ join_text (text_blocks blocks))%string.
Proof.
  induction blocks as [|b blocks IH]; intros acc; simpl.
  - now rewrite string_app_nil_r.
  - destruct b as [text|tu|tr|kind]; simpl; try apply IH.
    destruct text as [|c text]; simpl str_truthy; cbv iota.
    + rewrite IH. reflexivity.
    + rewrite IH, string_app_assoc. reflexivity.
Qed.

(** *** One pass through the loop body, by the outcome of the request *)

Lemma chat_iteration_raise tool_config self e ms :
  converse (build_request tool_config self) (bedrock self) = (Raise e, ms) ->
  chat_iteration tool_config self
  = (Return (Break ("Bedrock error: " ++ str_exc e)%string),
     record_call (build_request tool_config self, Raise e) (set_bedrock ms self)).
Proof.
  intros H. unfold chat_iteration, bind, attempt, bedrock_converse.
  rewrite H. reflexivity.
Qed.

Lemma chat_iteration_done tool_config self response ms :
  converse (build_request tool_config self) (bedrock self) = (Return response, ms) ->
  is_tool_use (stopReason response) = false ->
  chat_iteration tool_config self
  = (Return (Break (collect_text (get_content (response_message response)) "")),
     after_response tool_config self response ms).
Proof.
  intros H Hstop.
  unfold chat_iteration, bind, attempt, bedrock_converse, after_response,
    appended_assistant.
  rewrite H, Hstop.
  destruct (message_truthy (response_message response)); simpl.
  - reflexivity.
  - unfold ret, set_messages. simpl. rewrite app_nil_r. reflexivity.
Qed.

Lemma chat_iteration_tool_use tool_config self response ms :
  converse (build_request tool_config self) (bedrock self) = (Return response, ms) ->
  is_tool_use (stopReason response) = true ->
  exists tool_results self1,
    execute_tool_uses (get_content (response_message response)) []
      (after_response tool_config self response ms)
    = (Return tool_results, self1)
    /\ chat_iteration tool_config self
       = (Return Continue,
          record_round
            (set_messages (messages self1 ++ [tool_results_message tool_results])
               self1)).
Proof.
  intros H Hstop.
  destruct (execute_tool_uses_spec (get_content (response_message response)) []
              (after_response tool_config self response ms))
    as (results & self1 & Hexec & _).
  simpl in Hexec. exists results, self1. split; [exact Hexec|].
  unfold chat_iteration, bind, attempt, bedrock_converse.
  rewrite H, Hstop.
  unfold after_response, appended_assistant in Hexec.
  destruct (message_truthy (response_message response)); simpl.
  - rewrite Hexec. reflexivity.
  - rewrite app_nil_r in Hexec.
    change (messages self)
      with (messages (record_call (build_request tool_config self, Return response)
                        (set_bedrock ms self))) in Hexec.
    rewrite set_messages_same in Hexec. rewrite Hexec. reflexivity.
Qed.

(** *** The loop on fuel and its runs *)

Lemma chat_loop_run (fuel : nat) :
  forall tool_config self r self',
    chat_loop fuel tool_config self = Some (r, self') ->
    LoopRun tool_config self r self'.
Proof.
  induction fuel as [|fuel IH]; intros tool_config self r self' H; [discriminate|].
  simpl in H.
  destruct (converse (build_request tool_config self) (bedrock self))
    as [[response|e] ms] eqn:E.
  - destruct (is_tool_use (stopReason response)) eqn:Hstop.
    + destruct (chat_iteration_tool_use _ _ _ _ E Hstop)
        as (results & self1 & Hexec & Hiter).
      rewrite Hiter in H. eapply run_round; eauto.
    + rewrite (chat_iteration_done _ _ _ _ E Hstop) in H.
      inversion H; subst. now apply run_done.
  - rewrite (chat_iteration_raise _ _ _ _ E) in H.
    inversion H; subst. now apply run_error.
Qed.

Lemma run_chat_loop tool_config self r self' :
  LoopRun tool_config self r self' ->
  exists fuel, forall fuel', fuel <= fuel' ->
    chat_loop fuel' tool_config self = Some (r, self').
Proof.
  induction 1 as [self e ms E | self response ms E Hstop
                 | self response ms results self1 r self' E Hstop Hexec Hrun IH].
  - exists 1. intros [|fuel'] Hle; [lia|]. simpl.
    now rewrite (chat_iteration_raise _ _ _ _ E).
  - exists 1. intros [|fuel'] Hle; [lia|]. simpl.
    now rewrite (chat_iteration_done _ _ _ _ E Hstop).
  - destruct IH as (fuel & IH). exists (S fuel).
    intros [|fuel'] Hle; [lia|]. simpl.
    destruct (chat_iteration_tool_use _ _ _ _ E Hstop)
      as (results' & self1' & Hexec' & Hiter).
    rewrite Hexec in Hexec'. inversion Hexec'; subst.
    rewrite Hiter. apply IH. lia.
Qed.

(** What a tool loop leaves untouched, and what it returns. *)
Lemma execute_tool_uses_fields blocks self0 tool_results self1 :
  execute_tool_uses blocks [] self0 = (Return tool_results, self1) ->
  messages self1 = messages self0
  /\ service_log self1 = service_log self0
  /\ tool_rounds self1 = tool_rounds self0
  /\ bedrock self1 = bedrock self0
  /\ model_id self1 = model_id self0
  /\ tools self1 = tools self0
  /\ Forall is_tool_result tool_results
  /\ tool_result_ids tool_results = tool_use_ids blocks.
Proof.
  intros H.
  destruct (execute_tool_uses_spec blocks [] self0)
    as (results & self' & Hexec & Hsame & Hall & Hids).
  rewrite H in Hexec. simpl in Hexec. inversion Hexec; subst results self'.
  unfold same_but_session in Hsame. rewrite Hsame. simpl.
  repeat split; assumption.
Qed.

Ltac summary_base :=
  repeat split; simpl; rewrite ?app_nil_r, ?collect_text_join;
  try reflexivity; try assumption; try (now constructor); try (now eauto);
  try (repeat constructor; exists []; simpl; now rewrite app_nil_r).

Lemma loop_run_summary tool_config self r self' :
  LoopRun tool_config self r self' ->
  exists rounds earlier req outcome,
    ToolRounds (length earlier) rounds
    /\ service_log self' = service_log self ++ earlier ++ [(req, outcome)]
    /\ tool_rounds self' = tool_rounds self + length earlier
    /\ Forall tool_use_exchange earlier
    /\ Forall (sent_by_loop tool_config self) (earlier ++ [(req, outcome)])
    /\ (exists outcome0 rest,
          earlier ++ [(req, outcome)]
          = (build_request tool_config self, outcome0) :: rest)
    /\ final_exchange self rounds req outcome r self'
    /\ tools self' = tools self
    /\ model_id self' = model_id self.
Proof.
  induction 1 as [self e ms E | self response ms E Hstop
                 | self response ms results self1 r self' E Hstop Hexec Hrun IH].
  - exists [], [], (build_request tool_config self), (Raise e). simpl.
    summary_base.
  - exists [], [], (build_request tool_config self), (Return response). simpl.
    summary_base.
  - destruct IH as (rounds & earlier & req & outcome & Hrounds & Hlog & Hcount
                    & Hearlier & Hsent & Hfirst & (Hreq & Hfinal) & Htools & Hmodel).
    destruct (execute_tool_uses_fields _ _ _ _ Hexec)
      as (Hm & Hl & Hr & Hb & Hid & Ht & Hall & Hids).
    simpl in Hlog, Hcount, Hreq, Hfinal, Htools, Hmodel.
    rewrite Hm in *. rewrite Hl in Hlog. rewrite Hr in Hcount.
    rewrite Ht in Htools. rewrite Hid in Hmodel.
    simpl in Hlog, Hcount, Hreq, Hfinal, Htools, Hmodel.
    exists (appended_assistant (response_message response)
            ++ {| role := Some "user"; content := Some results |} :: rounds),
      ((build_request tool_config self, Return response) :: earlier),
      req, outcome.
    repeat split.
    + simpl. now constructor.
    + rewrite Hlog, <- !app_assoc. reflexivity.
    + rewrite Hcount. simpl. lia.
    + constructor; [|exact Hearlier]. exists response. now split.
    + simpl. constructor.
      * repeat split. exists []. simpl. now rewrite app_nil_r.
      * eapply Forall_impl; [|exact Hsent].
        intros entry (H1 & H2 & more & H3). simpl in H1, H3.
        rewrite Hid in H1. simpl in H1.
        repeat split; try assumption.
        eexists. rewrite H3, <- !app_assoc. reflexivity.
    + simpl. eauto.
    + rewrite Hreq. unfold tool_results_message.
      rewrite <- !app_assoc. reflexivity.
    + destruct outcome as [response'|e'].
      * destruct Hfinal as (H1 & H2 & H3). repeat split; try assumption.
        rewrite H3. unfold tool_results_message.
        rewrite <- !app_assoc. reflexivity.
      * destruct Hfinal as (H1 & H2). split; [assumption|].
        rewrite H2. unfold tool_results_message.
        rewrite <- !app_assoc. reflexivity.
    + exact Htools.
    + exact Hmodel.
Qed.






Lemma or_empty_default (d : option string) :
  or_empty d = match d with Some text => text | None => "" end.
Proof. destruct d as [[|c text]|]; reflexivity. Qed.

(** The loop over [result.content]. *)
Lemma first_text_found (before after : list Content) (text : string) :
  Forall (fun item => hasattr_text item = false) before ->
  first_text (before ++ TextContent text :: after) = Some text.
Proof.
  induction 1 as [|item before Hitem _ IH]; simpl; [reflexivity|].
  now rewrite Hitem.
Qed.

Lemma first_text_none (items : list Content) :
  Forall (fun item => hasattr_text item = false) items ->
  first_text items = None.
Proof.
  induction 1 as [|item items Hitem _ IH]; simpl; [reflexivity|].
  now rewrite Hitem.
Qed.

(** Every pass through the loop body sends exactly one request, the one
    built from the state it starts in. *)
Lemma chat_iteration_sends_one tool_config self :
  exists outcome,
    service_log (snd (chat_iteration tool_config self))
    = service_log self ++ [(build_request tool_config self, outcome)].
Proof.
  destruct (converse (build_request tool_config self) (bedrock self))
    as [[response|e] ms] eqn:E.
  - exists (Return response).
    destruct (is_tool_use (stopReason response)) eqn:Hstop.
    + destruct (chat_iteration_tool_use _ _ _ _ E Hstop)
        as (results & self1 & Hexec & Hiter).
      destruct (execute_tool_uses_fields _ _ _ _ Hexec) as (_ & Hl & _).
      rewrite Hiter. simpl. now rewrite Hl.
    + now rewrite (chat_iteration_done _ _ _ _ E Hstop).
  - exists (Raise e). now rewrite (chat_iteration_raise _ _ _ _ E).
Qed.

Lemma app_cons_neq {A : Type} (l r : list A) (x : A) : l ++ x :: r <> l.
Proof.
  intros H. apply (f_equal (@length A)) in H.
  rewrite length_app in H. simpl in H. lia.
Qed.

(** The last exchange of a log is determined by the log. *)
Lemma last_exchange_unique (log0 earlier earlier' : list (Request * PyResult Response))
      (x y : Request * PyResult Response) :
  log0 ++ earlier ++ [x] = earlier' ++ [y] -> x = y.
Proof.
  rewrite app_assoc. intros H. now apply app_inj_tail in H.
Qed.

Lemma chat_unfold fuel user_message self :
  chat fuel user_message self
  = chat_loop fuel (_format_tools_for_bedrock self) (chat_entry user_message self).
Proof. reflexivity. Qed.

(** ** The specification, claim by claim *)

(** C1 -- History invariant.  When the model service answers a request
    with stop reason ["tool_use"], the pass through the loop appends the
    assistant message and then exactly one user message; that message
    consists of tool results only, whose identifiers are, in order, the
    identifiers of the tool-use requests of the assistant message.  So no
    result refers to an identifier that was not requested, every identifier
    is answered as often as it was requested, and exactly once when the
    requests have pairwise distinct identifiers, as the data model demands.
    Over a whole call, what is appended to the history is the user message,
    then a sequence of such rounds, then at most the final assistant
    message. *)
Theorem tool_results_answer_requests :
  (forall tool_config self response ms,
      converse (build_request tool_config self) (bedrock self)
      = (Return response, ms) ->
      stopReason response = Some "tool_use" ->
      let requested := tool_use_ids (get_content (response_message response)) in
      exists tool_results self',
        chat_iteration tool_config self = (Return Continue, self')
        /\ messages self'
           = messages self
             ++ (if message_truthy (response_message response)
                 then [response_message response] else [])
             ++ [{| role := Some "user"; content := Some tool_results |}]
        /\ Forall is_tool_result tool_results
        /\ tool_result_ids tool_results = requested
        /\ (forall id, In id (tool_result_ids tool_results) -> In id requested)
        /\ (forall id, count_occ string_dec (tool_result_ids tool_results) id
                       = count_occ string_dec requested id)
        /\ (NoDup requested ->
            forall id, In id requested ->
                       count_occ string_dec (tool_result_ids tool_results) id = 1))
  /\ (forall fuel user_message self r self',
        chat fuel user_message self = Some (r, self') ->
        exists n rounds final,
          ToolRounds n rounds
          /\ tool_rounds self' = tool_rounds self + n
          /\ messages self'
             = messages self ++ user_text_message user_message :: rounds ++ final
          /\ (final = [] \/ exists assistant, final = [assistant])).
Proof.
  split.
  - intros tool_config self response ms E Hstop requested.
    assert (Htool : is_tool_use (stopReason response) = true)
      by (rewrite Hstop; reflexivity).
    destruct (chat_iteration_tool_use _ _ _ _ E Htool)
      as (results & self1 & Hexec & Hiter).
    destruct (execute_tool_uses_fields _ _ _ _ Hexec)
      as (Hm & _ & _ & _ & _ & _ & Hall & Hids).
    eexists results, _. split; [exact Hiter|].
    fold requested in Hids.
    repeat split.
    + simpl. rewrite Hm. simpl. rewrite <- app_assoc. reflexivity.
    + exact Hall.
    + exact Hids.
    + intros id. now rewrite Hids.
    + intros id. now rewrite Hids.
    + intros Hnodup id Hin. rewrite Hids.
      now apply (proj1 (NoDup_count_occ' string_dec requested) Hnodup).
  - intros fuel user_message self r self' H.
    rewrite chat_unfold in H. apply chat_loop_run in H.
    destruct (loop_run_summary _ _ _ _ H)
      as (rounds & earlier & req & outcome & Hrounds & _ & Hcount & _ & _ & _
          & (_ & Hfinal) & _).
    simpl in Hcount.
    destruct outcome as [response|e].
    + destruct Hfinal as (_ & _ & Hm).
      exists (length earlier), rounds,
        (appended_assistant (response_message response)).
      split; [exact Hrounds|]. split; [exact Hcount|]. split.
      * rewrite Hm. simpl. rewrite <- app_assoc. reflexivity.
      * unfold appended_assistant.
        destruct (message_truthy (response_message response)); eauto.
    + destruct Hfinal as (_ & Hm).
      exists (length earlier), rounds, [].
      split; [exact Hrounds|]. split; [exact Hcount|]. split.
      * rewrite Hm. simpl. rewrite <- app_assoc, app_nil_r. reflexivity.
      * now left.
Qed.

(** C2, in corrected form -- After a successful response the assistant
    message is appended whenever the response carries one, also when that
    message has no content block; nothing is appended for it only when the
    response carries no message, which the code reads as the empty dict, or
    carries the empty dict itself.  What follows in the same pass is the
    tool-result message of a tool round, or nothing. *)
Theorem assistant_message_appended_unless_absent tool_config self response ms :
  converse (build_request tool_config self) (bedrock self) = (Return response, ms) ->
  exists step self' appended later,
    chat_iteration tool_config self = (Return step, self')
    /\ messages self' = messages self ++ appended ++ later
    /\ (response_message response = empty_message -> appended = [])
    /\ (response_message response <> empty_message ->
        appended = [response_message response])
    /\ (forall sender,
          response_message response = {| role := sender; content := Some [] |} ->
          appended = [{| role := sender; content := Some [] |}])
    /\ (is_tool_use (stopReason response) = false -> later = [])
    /\ (is_tool_use (stopReason response) = true ->
        exists tool_results,
          later = [{| role := Some "user"; content := Some tool_results |}]).
Proof.
  intros E.
  assert (Hguard :
            (response_message response = empty_message ->
             appended_assistant (response_message response) = [])
            /\ (response_message response <> empty_message ->
                appended_assistant (response_message response)
                = [response_message response])).
  { unfold appended_assistant.
    destruct (response_message response) as [[sender|] [blocks|]]; simpl;
      split; intros H; try reflexivity; try discriminate;
      now contradiction H. }
  destruct Hguard as (Habsent & Hpresent).
  assert (Hcontentless :
            forall sender,
              response_message response = {| role := sender; content := Some [] |} ->
              appended_assistant (response_message response)
              = [{| role := sender; content := Some [] |}]).
  { intros sender Hm. rewrite Hpresent; [now rewrite Hm|].
    rewrite Hm. discriminate. }
  destruct (is_tool_use (stopReason response)) eqn:Hstop.
  - destruct (chat_iteration_tool_use _ _ _ _ E Hstop)
      as (results & self1 & Hexec & Hiter).
    destruct (execute_tool_uses_fields _ _ _ _ Hexec) as (Hm & _).
    eexists Continue, _, (appended_assistant (response_message response)),
      [tool_results_message results].
    split; [exact Hiter|].
    split; [|split; [exact Habsent|split; [exact Hpresent|
             split; [exact Hcontentless|split]]]].
    + simpl. rewrite Hm. simpl. rewrite <- app_assoc. reflexivity.
    + discriminate.
    + intros _. now exists results.
  - exists (Break (collect_text (get_content (response_message response)) "")),
      (after_response tool_config self response ms),
      (appended_assistant (response_message response)), [].
    split; [exact (chat_iteration_done _ _ _ _ E Hstop)|].
    split; [|split; [exact Habsent|split; [exact Hpresent|
             split; [exact Hcontentless|split]]]].
    + simpl. now rewrite app_nil_r.
    + reflexivity.
    + discriminate.
Qed.


(** C4 -- Model-service failure.  When a request of the loop raises, the
    call returns the string ["Bedrock error: <cause>"] at once and the
    history is what it was when the request was made: nothing is appended
    for the failing request and nothing is removed.  For a whole call
    that ends with a failed request, the history after the call is the
    history that was sent with that request. *)
Theorem model_failure_keeps_history :
  (forall fuel tool_config self e ms,
      converse (build_request tool_config self) (bedrock self) = (Raise e, ms) ->
      exists self',
        chat_loop (S fuel) tool_config self
        = Some (Return ("Bedrock error: " ++ str_exc e)%string, self')
        /\ messages self' = messages self
        /\ tool_rounds self' = tool_rounds self)
  /\ (forall fuel user_message self r self' earlier req e,
        chat fuel user_message self = Some (r, self') ->
        service_log self' = earlier ++ [(req, Raise e)] ->
        r = Return ("Bedrock error: " ++ str_exc e)%string
        /\ messages self' = request_messages req).
Proof.
  split.
  - intros fuel tool_config self e ms E.
    eexists. simpl. rewrite (chat_iteration_raise _ _ _ _ E).
    split; [reflexivity|]. split; reflexivity.
  - intros fuel user_message self r self' earlier req e H Hlast.
    rewrite chat_unfold in H. apply chat_loop_run in H.
    destruct (loop_run_summary _ _ _ _ H)
      as (rounds & earlier' & req' & outcome & _ & Hlog & _ & _ & _ & _
          & (Hreq & Hfinal) & _).
    rewrite Hlast in Hlog. symmetry in Hlog.
    apply last_exchange_unique in Hlog. inversion Hlog; subst req' outcome.
    destruct Hfinal as (Hr & Hm). split; [exact Hr|]. now rewrite Hm, Hreq.
Qed.


(** C6 -- The answer.  When a request of the loop succeeds with a stop
    reason other than ["tool_use"], the call returns the texts of the text
    blocks of that response's assistant message, joined in order; this is
    the empty string when there is no text block.  For a whole call
    whose last exchange is a response, that response has such a stop reason
    and its joined text is what the call returns. *)
Theorem final_answer_joins_text_blocks :
  (forall fuel tool_config self response ms,
      converse (build_request tool_config self) (bedrock self)
      = (Return response, ms) ->
      is_tool_use (stopReason response) = false ->
      let texts := text_blocks (get_content (response_message response)) in
      exists self',
        chat_loop (S fuel) tool_config self = Some (Return (join_text texts), self')
        /\ (texts = [] ->
            chat_loop (S fuel) tool_config self = Some (Return "", self')))
  /\ (forall fuel user_message self r self' earlier req response,
        chat fuel user_message self = Some (r, self') ->
        service_log self' = earlier ++ [(req, Return response)] ->
        is_tool_use (stopReason response) = false
        /\ r = Return (join_text
                         (text_blocks (get_content (response_message response))))).
Proof.
  split.
  - intros fuel tool_config self response ms E Hstop texts.
    eexists. simpl chat_loop. rewrite (chat_iteration_done _ _ _ _ E Hstop).
    rewrite collect_text_join. fold texts. simpl.
    split; [reflexivity|]. intros Hnil. now rewrite Hnil.
  - intros fuel user_message self r self' earlier req response H Hlast.
    rewrite chat_unfold in H. apply chat_loop_run in H.
    destruct (loop_run_summary _ _ _ _ H)
      as (rounds & earlier' & req' & outcome & _ & Hlog & _ & _ & _ & _
          & (Hreq & Hfinal) & _).
    rewrite Hlast in Hlog. symmetry in Hlog.
    apply last_exchange_unique in Hlog. inversion Hlog; subst req' outcome.
    destruct Hfinal as (Hstop & Hr & _). now split.
Qed.

(** C7 -- The tool configuration.  For an empty catalog
    [_format_tools_for_bedrock] returns the empty dict, and no request of a
    call carries a tool configuration.  For a non-empty catalog it returns
    one declaration per tool, in order, with the tool's name, its
    description (the empty string when there is none) and its input schema
    as it is, and the requests carry that configuration. *)
Theorem empty_catalog_offers_no_tools self :
  (tools self = [] ->
   _format_tools_for_bedrock self = empty_config
   /\ (forall a, toolConfig (build_request (_format_tools_for_bedrock self) a) = None)
   /\ (forall fuel user_message r self',
         chat fuel user_message self = Some (r, self') ->
         exists sent,
           service_log self' = service_log self ++ sent
           /\ sent <> []
           /\ Forall (fun entry => toolConfig (fst entry) = None) sent))
  /\ (tools self <> [] ->
      _format_tools_for_bedrock self
      = {| config_tools :=
             Some (map (fun tool =>
                          {| spec_name := tool_name tool;
                             spec_description :=
                               match tool_description tool with
                               | Some text => text
                               | None => ""
                               end;
                             spec_inputSchema_json := tool_inputSchema tool |})
                       (tools self)) |}
      /\ (forall a, toolConfig (build_request (_format_tools_for_bedrock self) a)
                    = Some (_format_tools_for_bedrock self))).
Proof.
  split.
  - intros Hnil.
    assert (Hcfg : _format_tools_for_bedrock self = empty_config)
      by (unfold _format_tools_for_bedrock; rewrite Hnil; reflexivity).
    split; [exact Hcfg|]. split.
    + intros a. rewrite Hcfg. reflexivity.
    + intros fuel user_message r self' H.
      rewrite chat_unfold in H. apply chat_loop_run in H.
      destruct (loop_run_summary _ _ _ _ H)
        as (rounds & earlier & req & outcome & _ & Hlog & _ & _ & Hsent & _).
      exists (earlier ++ [(req, outcome)]). split; [exact Hlog|]. split.
      * intros Hempty. now apply app_eq_nil in Hempty.
      * eapply Forall_impl; [|exact Hsent].
        intros entry (_ & Hconfig & _). rewrite Hconfig, Hcfg. reflexivity.
  - intros Hne.
    assert (Hcfg : _format_tools_for_bedrock self
                   = {| config_tools := Some (map tool_to_spec (tools self)) |}).
    { unfold _format_tools_for_bedrock. rewrite fold_specs_map. simpl.
      destruct (tools self) as [|tool rest]; [contradiction|]. reflexivity. }
    split.
    + rewrite Hcfg. do 2 f_equal. apply map_ext. intros tool.
      unfold tool_to_spec. now rewrite or_empty_default.
    + intros a. rewrite Hcfg. reflexivity.
Qed.

(** C8 -- Result normalization.  When the call-tool operation returns,
    [_execute_tool] returns the text of the first content item that has a
    text, whatever comes after it; when no item has a text, in particular
    when there is no item, it returns [str(result)]. *)
Theorem execute_tool_first_text tool_name tool_input self result ts :
  call_tool tool_name tool_input (session self) = (Return result, ts) ->
  (forall before text after,
      result_content result = before ++ TextContent text :: after ->
      Forall (fun item => hasattr_text item = false) before ->
      _execute_tool tool_name tool_input self = (Return text, set_session ts self))
  /\ (Forall (fun item => hasattr_text item = false) (result_content result) ->
      _execute_tool tool_name tool_input self
      = (Return (str_result result), set_session ts self)).
Proof.
  intros H. rewrite (execute_tool_return _ _ _ _ _ H). split.
  - intros before text after Hcontent Hbefore.
    now rewrite Hcontent, (first_text_found _ _ _ Hbefore).
  - intros Hnone. now rewrite (first_text_none _ Hnone).
Qed.

(** C9 -- Reset.  After [clear_history] the history is empty.  The next
    call enters its loop with a history of one message, the new user
    message, and that history is what its first request carries; every
    later request of that call carries a history that starts with that
    message. *)
Theorem clear_history_resets self :
  messages (clear_history self) = []
  /\ (forall user_message,
        let entry := chat_entry user_message (clear_history self) in
        let tool_config := _format_tools_for_bedrock entry in
        messages entry = [user_text_message user_message]
        /\ request_messages (build_request tool_config entry)
           = [user_text_message user_message]
        /\ exists outcome,
             service_log (snd (chat_iteration tool_config entry))
             = service_log self ++ [(build_request tool_config entry, outcome)])
  /\ (forall fuel user_message r self',
        chat fuel user_message (clear_history self) = Some (r, self') ->
        exists req outcome later,
          service_log self' = service_log self ++ (req, outcome) :: later
          /\ request_messages req = [user_text_message user_message]
          /\ Forall (fun entry =>
                       exists more,
                         request_messages (fst entry)
                         = user_text_message user_message :: more) later).
Proof.
  split; [reflexivity|]. split.
  - intros user_message entry tool_config.
    split; [reflexivity|]. split; [reflexivity|].
    exact (chat_iteration_sends_one tool_config entry).
  - intros fuel user_message r self' H.
    rewrite chat_unfold in H. apply chat_loop_run in H.
    destruct (loop_run_summary _ _ _ _ H)
      as (rounds & earlier & req & outcome & _ & Hlog & _ & _ & Hsent
          & (outcome0 & later & Hfirst) & _).
    rewrite Hfirst in Hlog, Hsent. simpl in Hlog.
    eexists _, outcome0, later. split; [exact Hlog|]. split; [reflexivity|].
    inversion Hsent as [|? ? _ Hlater]; subst.
    eapply Forall_impl; [|exact Hlater].
    intros entry (_ & _ & more & Hmore). exists more. exact Hmore.
Qed.

(** C10 -- A failed call keeps what it appended.  When the first request
    of a call raises, the call returns the error string and the history is
    the history before the call followed by the new user message.  For a
    whole call that ends with a failed request after [n] tool rounds, the
    history after the call is the history before it, followed by the new
    user message and the messages of those [n] rounds; it is never the
    history before the call. *)
Theorem failed_call_keeps_user_message :
  (forall fuel user_message self e ms,
      converse (build_request (_format_tools_for_bedrock self)
                  (chat_entry user_message self)) (bedrock self)
      = (Raise e, ms) ->
      exists self',
        chat (S fuel) user_message self
        = Some (Return ("Bedrock error: " ++ str_exc e)%string, self')
        /\ messages self' = messages self ++ [user_text_message user_message])
  /\ (forall fuel user_message self r self' earlier req e,
        chat fuel user_message self = Some (r, self') ->
        service_log self' = earlier ++ [(req, Raise e)] ->
        exists n rounds,
          r = Return ("Bedrock error: " ++ str_exc e)%string
          /\ ToolRounds n rounds
          /\ tool_rounds self' = tool_rounds self + n
          /\ messages self'
             = messages self ++ user_text_message user_message :: rounds
          /\ messages self' <> messages self).
Proof.
  split.
  - intros fuel user_message self e ms E.
    eexists. rewrite chat_unfold. simpl chat_loop.
    rewrite (chat_iteration_raise _ _ _ _ E). split; reflexivity.
  - intros fuel user_message self r self' earlier req e H Hlast.
    rewrite chat_unfold in H. apply chat_loop_run in H.
    destruct (loop_run_summary _ _ _ _ H)
      as (rounds & earlier' & req' & outcome & Hrounds & Hlog & Hcount & _ & _ & _
          & (Hreq & Hfinal) & _).
    rewrite Hlast in Hlog. symmetry in Hlog.
    apply last_exchange_unique in Hlog. inversion Hlog; subst req' outcome.
    destruct Hfinal as (Hr & Hm). simpl in Hm, Hcount.
    rewrite <- app_assoc in Hm. simpl in Hm.
    exists (length earlier'), rounds.
    repeat split; try assumption.
    rewrite Hm. apply app_cons_neq.
Qed.

End AgentFacts.

(** ** The scripted conversation as an instance of the theorems *)

Ltac with_run call k :=
  let v := eval vm_compute in call in
  lazymatch v with
  | Some (?r, ?s) => k r s
  end.

Ltac split_log s k :=
  let v := eval vm_compute in (service_log s) in
  lazymatch v with
  | [?x] => k (@nil (Request * PyResult Response)) x
  | [?a; ?x] => k [a] x
  | [?a; ?b; ?x] => k [a; b] x
  end.



(** The first round of the scripted conversation, and its whole history. *)
Lemma tool_results_answer_requests_witness :
  (converse (build_request (_format_tools_for_bedrock asking_agent) asking_agent)
            (bedrock asking_agent)
   = (Return first_response, [Return second_response; Return third_response])
   /\ stopReason first_response = Some "tool_use"
   /\ NoDup (tool_use_ids (get_content (response_message first_response)))
   /\ exists tool_results self',
       chat_iteration (_format_tools_for_bedrock asking_agent) asking_agent
       = (Return Continue, self')
       /\ messages self'
          = messages asking_agent
            ++ [response_message first_response]
            ++ [{| role := Some "user"; content := Some tool_results |}]
       /\ tool_result_ids tool_results = ["t1"]
       /\ count_occ string_dec (tool_result_ids tool_results) "t1" = 1)
  /\ (exists r self' n rounds final,
        chat 3 "How many rows in table X?"
          (scripted_agent three_step_script toolbox_tools earlier_history)
        = Some (r, self')
        /\ ToolRounds n rounds
        /\ tool_rounds self' = 0 + n
        /\ messages self'
           = earlier_history
             ++ user_text_message "How many rows in table X?" :: rounds ++ final
        /\ (final = [] \/ exists assistant, final = [assistant])).
Proof.
  destruct (@tool_results_answer_requests scripted_bedrock toolbox_session)
    as (Hpass & Hcall).
  split.
  - split; [reflexivity|]. split; [reflexivity|].
    assert (Hnodup : NoDup (tool_use_ids
                              (get_content (response_message first_response))))
      by (repeat constructor; simpl; tauto).
    split; [exact Hnodup|].
    destruct (Hpass (_format_tools_for_bedrock asking_agent) asking_agent
                first_response [Return second_response; Return third_response]
                eq_refl eq_refl)
      as (tool_results & self' & Hiter & Hmessages & _ & Hids & _ & _ & Honce).
    exists tool_results, self'.
    split; [exact Hiter|]. split; [exact Hmessages|]. split; [exact Hids|].
    apply (Honce Hnodup). left. reflexivity.
  - with_run (chat 3 "How many rows in table X?"
                (scripted_agent three_step_script toolbox_tools earlier_history))
      ltac:(fun r s =>
              destruct (Hcall 3 "How many rows in table X?"
                          (scripted_agent three_step_script toolbox_tools
                             earlier_history) r s eq_refl)
                as (n & rounds & final & H1 & H2 & H3 & H4);
              exists r, s, n, rounds, final; repeat split; assumption).
Defined.

(** A successful response without a message, and one whose message is the
    empty dict: the call returns the empty string and the history has
    gained the user message only; no assistant message was appended after
    it. *)
Lemma silent_response_appends_nothing :
  (converse (build_request (_format_tools_for_bedrock silent_agent)
               (chat_entry "Are you there?" silent_agent))
            (bedrock silent_agent)
   = (Return silent_response, [])
   /\ output silent_response = None
   /\ response_message silent_response = empty_message
   /\ exists self',
       chat 1 "Are you there?" silent_agent = Some (Return "", self')
       /\ messages self'
          = messages silent_agent ++ [user_text_message "Are you there?"]
       /\ messages self'
          <> messages silent_agent ++ [user_text_message "Are you there?"]
             ++ [response_message silent_response]
       /\ ~ In (response_message silent_response) (messages self'))
  /\ (converse (build_request (_format_tools_for_bedrock hollow_agent)
                  (chat_entry "Are you there?" hollow_agent))
               (bedrock hollow_agent)
      = (Return hollow_response, [])
      /\ output hollow_response = Some {| output_message := Some empty_message |}
      /\ exists self',
          chat 1 "Are you there?" hollow_agent = Some (Return "", self')
          /\ messages self'
             = messages hollow_agent ++ [user_text_message "Are you there?"]
          /\ messages self'
             <> messages hollow_agent ++ [user_text_message "Are you there?"]
                ++ [response_message hollow_response]
          /\ ~ In (response_message hollow_response) (messages self')).
Proof.
  split.
  - split; [reflexivity|]. split; [reflexivity|]. split; [reflexivity|].
    eexists. split; [reflexivity|]. split; [reflexivity|]. split.
    + discriminate.
    + simpl. intros [H|[H|[H|[]]]]; discriminate.
  - split; [reflexivity|]. split; [reflexivity|].
    eexists. split; [reflexivity|]. split; [reflexivity|]. split.
    + discriminate.
    + simpl. intros [H|[H|[H|[]]]]; discriminate.
Qed.

(** The pass that receives the response without a message, and the pass
    that receives an assistant message without content blocks: the first
    appends nothing, the second appends the message. *)
Lemma assistant_message_appended_unless_absent_witness :
  (converse (build_request (_format_tools_for_bedrock silent_agent)
               (chat_entry "Are you there?" silent_agent))
            (bedrock silent_agent)
   = (Return silent_response, [])
   /\ exists step self',
       chat_iteration (_format_tools_for_bedrock silent_agent)
         (chat_entry "Are you there?" silent_agent)
       = (Return step, self')
       /\ messages self'
          = messages silent_agent ++ [user_text_message "Are you there?"])
  /\ (converse (build_request (_format_tools_for_bedrock contentless_agent)
                  (chat_entry "Are you there?" contentless_agent))
               (bedrock contentless_agent)
      = (Return contentless_response, [])
      /\ response_message contentless_response
         = {| role := Some "assistant"; content := Some [] |}
      /\ exists step self',
          chat_iteration (_format_tools_for_bedrock contentless_agent)
            (chat_entry "Are you there?" contentless_agent)
          = (Return step, self')
          /\ messages self'
             = messages contentless_agent
               ++ [user_text_message "Are you there?";
                   {| role := Some "assistant"; content := Some [] |}]).
Proof.
  split.
  - split; [reflexivity|].
    destruct (assistant_message_appended_unless_absent
                (_format_tools_for_bedrock silent_agent)
                (chat_entry "Are you there?" silent_agent)
                silent_response [] eq_refl)
      as (step & self' & appended & later & Hiter & Hmessages & Habsent & _
          & _ & Hdone & _).
    exists step, self'. split; [exact Hiter|].
    rewrite Hmessages, (Habsent eq_refl), (Hdone eq_refl). reflexivity.
  - split; [reflexivity|]. split; [reflexivity|].
    destruct (assistant_message_appended_unless_absent
                (_format_tools_for_bedrock contentless_agent)
                (chat_entry "Are you there?" contentless_agent)
                contentless_response [] eq_refl)
      as (step & self' & appended & later & Hiter & Hmessages & _ & _
          & Hcontentless & Hdone & _).
    exists step, self'. split; [exact Hiter|].
    rewrite Hmessages, (Hcontentless (Some "assistant") eq_refl),
      (Hdone eq_refl).
    reflexivity.
Defined.




(** A throttled first request, and a request throttled after one round. *)
Lemma model_failure_keeps_history_witness :
  (converse (build_request (_format_tools_for_bedrock throttled_agent)
               throttled_agent) (bedrock throttled_agent)
   = (Raise throttled, [])
   /\ exists self',
       chat_loop 1 (_format_tools_for_bedrock throttled_agent) throttled_agent
       = Some (Return "Bedrock error: Too many requests, please wait before trying again.",
               self')
       /\ messages self' = earlier_history
       /\ tool_rounds self' = 0)
  /\ (exists r self' earlier req,
        chat 5 "How many rows in table X?" throttled_later_agent = Some (r, self')
        /\ service_log self' = earlier ++ [(req, Raise throttled)]
        /\ r = Return "Bedrock error: Too many requests, please wait before trying again."
        /\ messages self' = request_messages req).
Proof.
  destruct (@model_failure_keeps_history scripted_bedrock toolbox_session)
    as (Hloop & Hcall).
  split.
  - split; [reflexivity|].
    exact (Hloop 0 (_format_tools_for_bedrock throttled_agent) throttled_agent
             throttled [] eq_refl).
  - with_run (chat 5 "How many rows in table X?" throttled_later_agent)
      ltac:(fun r s =>
              split_log s
                ltac:(fun earlier last =>
                        lazymatch last with
                        | (?req, _) =>
                            exists r, s, earlier, req;
                            split; [reflexivity|]; split; [reflexivity|];
                            exact (Hcall 5 "How many rows in table X?"
                                     throttled_later_agent r s earlier req
                                     throttled eq_refl eq_refl)
                        end)).
Defined.


(** An answer in two text blocks, an answer without text, and the answer of
    the scripted conversation. *)
Lemma final_answer_joins_text_blocks_witness :
  (converse (build_request (_format_tools_for_bedrock answering_agent)
               answering_agent) (bedrock answering_agent)
   = (Return third_response, [])
   /\ is_tool_use (stopReason third_response) = false
   /\ exists self',
       chat_loop 1 (_format_tools_for_bedrock answering_agent) answering_agent
       = Some (Return "There are 42 rows.", self'))
  /\ (converse (build_request (_format_tools_for_bedrock silent_agent)
                  silent_agent) (bedrock silent_agent)
      = (Return silent_response, [])
      /\ is_tool_use (stopReason silent_response) = false
      /\ text_blocks (get_content (response_message silent_response)) = []
      /\ exists self',
          chat_loop 1 (_format_tools_for_bedrock silent_agent) silent_agent
          = Some (Return "", self'))
  /\ (exists r self' earlier req,
        chat 3 "How many rows in table X?"
          (scripted_agent three_step_script toolbox_tools [])
        = Some (r, self')
        /\ service_log self' = earlier ++ [(req, Return third_response)]
        /\ is_tool_use (stopReason third_response) = false
        /\ r = Return "There are 42 rows.").
Proof.
  destruct (@final_answer_joins_text_blocks scripted_bedrock toolbox_session)
    as (Hloop & Hcall).
  split; [|split].
  - split; [reflexivity|]. split; [reflexivity|].
    destruct (Hloop 0 (_format_tools_for_bedrock answering_agent) answering_agent
                third_response [] eq_refl eq_refl) as (self' & Hrun & _).
    exists self'. exact Hrun.
  - split; [reflexivity|]. split; [reflexivity|]. split; [reflexivity|].
    destruct (Hloop 0 (_format_tools_for_bedrock silent_agent) silent_agent
                silent_response [] eq_refl eq_refl) as (self' & _ & Hempty).
    exists self'. exact (Hempty eq_refl).
  - with_run (chat 3 "How many rows in table X?"
                (scripted_agent three_step_script toolbox_tools []))
      ltac:(fun r s =>
              split_log s
                ltac:(fun earlier last =>
                        lazymatch last with
                        | (?req, _) =>
                            exists r, s, earlier, req;
                            split; [reflexivity|]; split; [reflexivity|];
                            exact (Hcall 3 "How many rows in table X?"
                                     (scripted_agent three_step_script
                                        toolbox_tools [])
                                     r s earlier req third_response
                                     eq_refl eq_refl)
                        end)).
Defined.

(** An agent without tools, and the agent with the two tools of the catalog. *)
Lemma empty_catalog_offers_no_tools_witness :
  (tools silent_agent = []
   /\ _format_tools_for_bedrock silent_agent = empty_config
   /\ toolConfig (build_request (_format_tools_for_bedrock silent_agent)
                    silent_agent) = None
   /\ exists r self' sent,
       chat 1 "Are you there?" silent_agent = Some (r, self')
       /\ service_log self' = service_log silent_agent ++ sent
       /\ sent <> []
       /\ Forall (fun entry => toolConfig (fst entry) = None) sent)
  /\ (tools answering_agent <> []
      /\ _format_tools_for_bedrock answering_agent
         = {| config_tools :=
                Some [ {| spec_name := "query_sql";
                          spec_description := "Run a SQL query";
                          spec_inputSchema_json :=
                            JObj [("type", JStr "object");
                                  ("properties",
                                   JObj [("query", JObj [("type", JStr "string")])])] |};
                       {| spec_name := "list_tables";
                          spec_description := "";
                          spec_inputSchema_json := JObj [("type", JStr "object")] |} ] |}).
Proof.
  split.
  - destruct (proj1 (empty_catalog_offers_no_tools silent_agent) eq_refl)
      as (Hconfig & Hrequest & Hsent).
    split; [reflexivity|]. split; [exact Hconfig|].
    split; [exact (Hrequest silent_agent)|].
    with_run (chat 1 "Are you there?" silent_agent)
      ltac:(fun r s =>
              destruct (Hsent 1 "Are you there?" r s eq_refl)
                as (sent & H1 & H2 & H3);
              exists r, s, sent; repeat split; assumption).
  - assert (Hne : tools answering_agent <> []) by discriminate.
    split; [exact Hne|].
    exact (proj1 (proj2 (empty_catalog_offers_no_tools answering_agent) Hne)).
Defined.

(** A result with an image and two texts, and a result without content. *)
Lemma execute_tool_first_text_witness :
  (@call_tool toolbox_session "list_tables" (JObj []) (session answering_agent)
   = (Return {| result_content :=
                  [ImageContent "iVBORw0KGgo=" "image/png";
                   TextContent "users"; TextContent "orders"];
                result_isError := false |}, 1)
   /\ Forall (fun item => hasattr_text item = false)
             [ImageContent "iVBORw0KGgo=" "image/png"]
   /\ _execute_tool "list_tables" (JObj []) answering_agent
      = (Return "users",
         @set_session scripted_bedrock toolbox_session 1 answering_agent))
  /\ (@call_tool toolbox_session "ping" JNull (session answering_agent)
      = (Return {| result_content := []; result_isError := false |}, 1)
      /\ Forall (fun item => hasattr_text item = false) (@nil Content)
      /\ _execute_tool "ping" JNull answering_agent
         = (Return "meta=None content=[] isError=False",
            @set_session scripted_bedrock toolbox_session 1 answering_agent)).
Proof.
  split.
  - assert (Hbefore : Forall (fun item => hasattr_text item = false)
                             [ImageContent "iVBORw0KGgo=" "image/png"])
      by (repeat constructor).
    split; [reflexivity|]. split; [exact Hbefore|].
    exact (proj1 (execute_tool_first_text "list_tables" (JObj []) answering_agent
                    {| result_content :=
                         [ImageContent "iVBORw0KGgo=" "image/png";
                          TextContent "users"; TextContent "orders"];
                       result_isError := false |} 1 eq_refl)
                 [ImageContent "iVBORw0KGgo=" "image/png"] "users"
                 [TextContent "orders"] eq_refl Hbefore).
  - assert (Hnone : Forall (fun item => hasattr_text item = false) (@nil Content))
      by constructor.
    split; [reflexivity|]. split; [exact Hnone|].
    exact (proj2 (execute_tool_first_text "ping" JNull answering_agent
                    {| result_content := []; result_isError := false |} 1
                    eq_refl) Hnone).
Defined.

(** A call after [clear_history] on an agent that had a history. *)
Lemma clear_history_resets_witness :
  messages (clear_history throttled_later_agent) = []
  /\ exists r self' req outcome later,
      chat 5 "How many rows in table X?" (clear_history throttled_later_agent)
      = Some (r, self')
      /\ service_log self'
         = service_log throttled_later_agent ++ (req, outcome) :: later
      /\ request_messages req = [user_text_message "How many rows in table X?"]
      /\ Forall (fun entry =>
                   exists more,
                     request_messages (fst entry)
                     = user_text_message "How many rows in table X?" :: more)
                later.
Proof.
  destruct (clear_history_resets throttled_later_agent)
    as (Hempty & _ & Hcall).
  split; [exact Hempty|].
  with_run (chat 5 "How many rows in table X?"
              (clear_history throttled_later_agent))
    ltac:(fun r s =>
            destruct (Hcall 5 "How many rows in table X?" r s eq_refl)
              as (req & outcome & later & H1 & H2 & H3);
            exists r, s, req, outcome, later; repeat split; assumption).
Defined.

(** The same two throttled calls, seen from the history before them. *)
Lemma failed_call_keeps_user_message_witness :
  (converse (build_request (_format_tools_for_bedrock throttled_agent)
               (chat_entry "Are you there?" throttled_agent))
            (bedrock throttled_agent)
   = (Raise throttled, [])
   /\ exists self',
       chat 1 "Are you there?" throttled_agent
       = Some (Return "Bedrock error: Too many requests, please wait before trying again.",
               self')
       /\ messages self' = earlier_history ++ [user_text_message "Are you there?"])
  /\ (exists r self' earlier req n rounds,
        chat 5 "How many rows in table X?" throttled_later_agent = Some (r, self')
        /\ service_log self' = earlier ++ [(req, Raise throttled)]
        /\ r = Return "Bedrock error: Too many requests, please wait before trying again."
        /\ ToolRounds n rounds
        /\ tool_rounds self' = tool_rounds throttled_later_agent + n
        /\ messages self'
           = earlier_history
             ++ user_text_message "How many rows in table X?" :: rounds
        /\ messages self' <> earlier_history).
Proof.
  destruct (@failed_call_keeps_user_message scripted_bedrock toolbox_session)
    as (Hfirst & Hcall).
  split.
  - split; [reflexivity|].
    exact (Hfirst 0 "Are you there?" throttled_agent throttled [] eq_refl).
  - with_run (chat 5 "How many rows in table X?" throttled_later_agent)
      ltac:(fun r s =>
              split_log s
                ltac:(fun earlier last =>
                        lazymatch last with
                        | (?req, _) =>
                            destruct (Hcall 5 "How many rows in table X?"
                                        throttled_later_agent r s earlier req
                                        throttled eq_refl eq_refl)
                              as (n & rounds & H1 & H2 & H3 & H4 & H5);
                            exists r, s, earlier, req, n, rounds;
                            split; [reflexivity|]; split; [reflexivity|];
                            repeat split; assumption
                        end)).
Defined.

(** ** Further facts: the loop, the console and the process *)

Section FurtherFacts.

Context {bedrock_client : BedrockClient} {tool_session : ToolSession}
        {platform : Platform}.

(** *** The loop *)

(** A run of the loop leaves the configuration of the agent alone. *)
Lemma loop_run_configuration tool_config self r self' :
  LoopRun tool_config self r self' ->
  mcp_url self' = mcp_url self
  /\ region self' = region self
  /\ model_id self' = model_id self
  /\ tools self' = tools self.
Proof.
  induction 1 as [self e ms E | self response ms E Hstop
                 | self response ms results self1 r self' E Hstop Hexec Hrun IH].
  - repeat split.
  - repeat split.
  - destruct (execute_tool_uses_spec (get_content (response_message response)) []
                (after_response tool_config self response ms))
      as (results' & self1' & Hexec' & Hsame & _).
    rewrite Hexec in Hexec'. inversion Hexec'; subst self1'.
    unfold same_but_session in Hsame.
    destruct IH as (H1 & H2 & H3 & H4).
    simpl in H1, H2, H3, H4.
    rewrite Hsame in H1, H2, H3, H4. simpl in H1, H2, H3, H4.
    repeat split; assumption.
Qed.

(** The requests of a run carry a history that grows round by round. *)
Lemma loop_run_chained tool_config self r self' :
  LoopRun tool_config self r self' ->
  exists sent,
    service_log self' = service_log self ++ sent
    /\ sent <> []
    /\ chained (messages self) sent.
Proof.
  induction 1 as [self e ms E | self response ms E Hstop
                 | self response ms results self1 r self' E Hstop Hexec Hrun IH].
  - exists [(build_request tool_config self, Raise e)].
    repeat split. discriminate.
  - exists [(build_request tool_config self, Return response)].
    repeat split. discriminate.
  - destruct IH as (sent & Hlog & Hne & Hchain).
    destruct (execute_tool_uses_fields _ _ _ _ Hexec)
      as (Hm & Hl & _ & _ & _ & _ & Hall & Hids).
    simpl in Hlog, Hchain. rewrite Hl in Hlog. rewrite Hm in Hchain.
    simpl in Hlog, Hchain.
    exists ((build_request tool_config self, Return response) :: sent).
    split; [rewrite Hlog, <- app_assoc; reflexivity|].
    split; [discriminate|].
    simpl. split; [reflexivity|].
    destruct sent as [|entry sent]; [contradiction|].
    exists response, results. repeat split; try assumption.
    rewrite <- app_assoc in Hchain. exact Hchain.
Qed.

(** Without tool-use requests the tool loop does nothing. *)
Lemma execute_tool_uses_none (blocks : list ContentBlock) :
  forall acc self,
    tool_use_ids blocks = [] ->
    execute_tool_uses blocks acc self = (Return acc, self).
Proof.
  induction blocks as [|b blocks IH]; intros acc self H; [reflexivity|].
  destruct b as [text|tu|tr|kind]; simpl in *; try discriminate; now apply IH.
Qed.

(** The tool loop is the tool server called for each request in turn. *)
Lemma execute_tool_uses_call_each (blocks : list ContentBlock) :
  forall acc self,
    execute_tool_uses blocks acc self
    = (Return (acc ++ map (fun answered =>
                             tool_result_block (fst answered) (snd answered))
                          (combine (tool_use_ids blocks)
                                   (fst (call_each (tool_uses blocks) (session self))))),
       set_session (snd (call_each (tool_uses blocks) (session self))) self).
Proof.
  induction blocks as [|b blocks IH]; intros acc self.
  - simpl. unfold ret. rewrite app_nil_r. destruct self; reflexivity.
  - destruct b as [text|tu|tr|kind]; simpl; try apply IH.
    unfold bind.
    destruct (call_tool (tool_use_name tu) (tool_use_input tu) (session self))
      as [[result|e] ts] eqn:E.
    + rewrite (execute_tool_return _ _ _ _ _ E), IH. simpl.
      destruct (call_each (tool_uses blocks) ts) as [texts ts2]. simpl.
      rewrite <- app_assoc. reflexivity.
    + rewrite (execute_tool_raise _ _ _ _ _ E), IH. simpl.
      destruct (call_each (tool_uses blocks) ts) as [texts ts2]. simpl.
      rewrite <- app_assoc. reflexivity.
Qed.

Lemma call_each_length (requests : list ToolUse) :
  forall ts, length (fst (call_each requests ts)) = length requests.
Proof.
  induction requests as [|request requests IH]; intros ts; [reflexivity|].
  simpl.
  destruct (call_tool (tool_use_name request) (tool_use_input request) ts)
    as [outcome ts1].
  specialize (IH ts1). destruct (call_each requests ts1) as [texts ts2].
  simpl in *. now rewrite IH.
Qed.

(** A service that always asks for tools keeps the loop going. *)
Lemma chat_loop_insistent (states : MS -> Prop) (fuel : nat) :
  always_tool_use states ->
  forall tool_config self,
    states (bedrock self) ->
    chat_loop fuel tool_config self = None.
Proof.
  intros Halways. induction fuel as [|fuel IH]; intros tool_config self Hin;
    [reflexivity|].
  destruct (Halways _ Hin (build_request tool_config self))
    as (response & ms & E & Hstop & Hnext).
  destruct (chat_iteration_tool_use _ _ _ _ E Hstop)
    as (results & self1 & Hexec & Hiter).
  destruct (execute_tool_uses_fields _ _ _ _ Hexec)
    as (_ & _ & _ & Hb & _).
  simpl. rewrite Hiter. apply IH. simpl. rewrite Hb. exact Hnext.
Qed.

(** *** Further properties of [chat] *)

(** X1 -- A call of [chat] changes neither the tool catalog nor the
    configuration of the agent, and every request it sends carries the
    agent's model identifier and the tool configuration of its catalog. *)
Theorem chat_keeps_configuration fuel user_message self r self' :
  chat fuel user_message self = Some (r, self') ->
  mcp_url self' = mcp_url self
  /\ region self' = region self
  /\ model_id self' = model_id self
  /\ tools self' = tools self
  /\ exists sent,
      service_log self' = service_log self ++ sent
      /\ Forall (fun entry =>
                   modelId (fst entry) = model_id self
                   /\ toolConfig (fst entry)
                      = (if config_truthy (_format_tools_for_bedrock self)
                         then Some (_format_tools_for_bedrock self)
                         else None)) sent.
Proof.
  intros H. rewrite chat_unfold in H. apply chat_loop_run in H.
  destruct (loop_run_configuration _ _ _ _ H) as (H1 & H2 & H3 & H4).
  destruct (loop_run_summary _ _ _ _ H)
    as (rounds & earlier & req & outcome & _ & Hlog & _ & _ & Hsent & _).
  repeat split; try assumption.
  exists (earlier ++ [(req, outcome)]). split; [exact Hlog|].
  eapply Forall_impl; [|exact Hsent].
  intros entry (Hmodel & Hconfig & _). split; assumption.
Qed.

(** X2 -- The model service is always sent the whole conversation: the
    first request of a call carries the history before the call followed
    by the new user message, and each later request carries the history of
    the request before it followed by the assistant message of its response
    and the user message of the tool results. *)
Theorem requests_carry_growing_history fuel user_message self r self' :
  chat fuel user_message self = Some (r, self') ->
  exists sent,
    service_log self' = service_log self ++ sent
    /\ sent <> []
    /\ chained (messages self ++ [user_text_message user_message]) sent.
Proof.
  intros H. rewrite chat_unfold in H. apply chat_loop_run in H.
  exact (loop_run_chained _ _ _ _ H).
Qed.

(** X3 -- Tool-use requests are honoured under stop reason ["tool_use"]
    only.  Under any other stop reason the call returns at once without
    calling the tool server, also when the assistant message asks for
    tools; that message then ends the history with its requests
    unanswered. *)
Theorem terminal_stop_runs_no_tool fuel tool_config self response ms :
  converse (build_request tool_config self) (bedrock self) = (Return response, ms) ->
  is_tool_use (stopReason response) = false ->
  exists self',
    chat_loop (S fuel) tool_config self
    = Some (Return (join_text (text_blocks (get_content (response_message response)))),
            self')
    /\ session self' = session self
    /\ tool_rounds self' = tool_rounds self
    /\ messages self'
       = messages self ++ appended_assistant (response_message response).
Proof.
  intros E Hstop. eexists. simpl chat_loop.
  rewrite (chat_iteration_done _ _ _ _ E Hstop), collect_text_join.
  repeat split.
Qed.

(** X4 -- A response with stop reason ["tool_use"] whose message asks for
    no tool, or which has no message, makes the loop append a user message
    without content and ask the model again; the tool server is not
    called. *)
Theorem tool_use_without_requests tool_config self response ms :
  converse (build_request tool_config self) (bedrock self) = (Return response, ms) ->
  is_tool_use (stopReason response) = true ->
  tool_use_ids (get_content (response_message response)) = [] ->
  exists self',
    chat_iteration tool_config self = (Return Continue, self')
    /\ messages self'
       = messages self
         ++ appended_assistant (response_message response)
         ++ [{| role := Some "user"; content := Some [] |}]
    /\ session self' = session self
    /\ tool_rounds self' = S (tool_rounds self).
Proof.
  intros E Hstop Hnone.
  destruct (chat_iteration_tool_use _ _ _ _ E Hstop)
    as (results & self1 & Hexec & Hiter).
  rewrite (execute_tool_uses_none _ _ _ Hnone) in Hexec.
  inversion Hexec; subst results self1.
  eexists. split; [exact Hiter|]. simpl.
  rewrite <- app_assoc. repeat split.
Qed.

(** X5 -- In a tool round the tool server is called once for each tool-use
    request of the assistant message, in the order of the requests and
    each time in the state the call before left it in; the user message of
    the round pairs each request identifier with the text of its call. *)
Theorem tool_round_calls_each_request tool_config self response ms :
  converse (build_request tool_config self) (bedrock self) = (Return response, ms) ->
  is_tool_use (stopReason response) = true ->
  let blocks := get_content (response_message response) in
  let answers := call_each (tool_uses blocks) (session self) in
  exists self',
    chat_iteration tool_config self = (Return Continue, self')
    /\ session self' = snd answers
    /\ length (fst answers) = length (tool_use_ids blocks)
    /\ messages self'
       = messages self
         ++ appended_assistant (response_message response)
         ++ [{| role := Some "user";
                content :=
                  Some (map (fun answered =>
                               tool_result_block (fst answered) (snd answered))
                            (combine (tool_use_ids blocks) (fst answers))) |}].
Proof.
  intros E Hstop blocks answers.
  destruct (chat_iteration_tool_use _ _ _ _ E Hstop)
    as (results & self1 & Hexec & Hiter).
  rewrite execute_tool_uses_call_each in Hexec. simpl in Hexec.
  inversion Hexec as [[Hresults Hself1]]. subst results self1.
  eexists. split; [exact Hiter|]. simpl. fold blocks. fold answers.
  split; [reflexivity|]. split.
  - unfold answers. rewrite call_each_length. unfold blocks.
    clear. induction (get_content (response_message response)) as [|b l IH];
      [reflexivity|].
    destruct b; simpl; now rewrite ?IH.
  - rewrite <- app_assoc. reflexivity.
Qed.

(** X6 -- The loop has no bound of its own: as long as the model service
    keeps answering with stop reason ["tool_use"], [chat] does not return,
    whatever the number of passes allowed. *)
Theorem chat_never_returns_from_insistent_service
        (states : MS -> Prop) fuel user_message self :
  always_tool_use states ->
  states (bedrock self) ->
  chat fuel user_message self = None.
Proof.
  intros Halways Hin. rewrite chat_unfold.
  now apply (chat_loop_insistent states).
Qed.

(** X7 -- A failed call is not undone, so asking again sends both
    messages: when the first request of a call raises, the call returns
    the error string, and the first request of the next call carries the
    history before the failed call followed by the user message of the
    failed call and then the new one. *)
Theorem retry_after_failure_sends_both_messages
        fuel first_message second_message self e ms :
  converse (build_request (_format_tools_for_bedrock self)
              (chat_entry first_message self)) (bedrock self)
  = (Raise e, ms) ->
  exists self1,
    chat (S fuel) first_message self
    = Some (Return ("Bedrock error: " ++ str_exc e)%string, self1)
    /\ (exists outcome,
          service_log (snd (chat_iteration (_format_tools_for_bedrock self1)
                              (chat_entry second_message self1)))
          = service_log self1
            ++ [(build_request (_format_tools_for_bedrock self1)
                   (chat_entry second_message self1), outcome)])
    /\ request_messages (build_request (_format_tools_for_bedrock self1)
                           (chat_entry second_message self1))
       = messages self
         ++ [user_text_message first_message; user_text_message second_message]
    /\ (forall fuel' r self2,
          chat fuel' second_message self1 = Some (r, self2) ->
          exists req outcome later,
            service_log self2 = service_log self1 ++ (req, outcome) :: later
            /\ request_messages req
               = messages self
                 ++ [user_text_message first_message;
                     user_text_message second_message]).
Proof.
  intros E. eexists. rewrite chat_unfold. simpl chat_loop.
  rewrite (chat_iteration_raise _ _ _ _ E).
  split; [reflexivity|].
  split; [exact (chat_iteration_sends_one _ (chat_entry second_message _))|].
  split.
  - simpl. rewrite <- app_assoc. reflexivity.
  - intros fuel' r self2 H.
    rewrite chat_unfold in H. apply chat_loop_run in H.
    destruct (loop_run_summary _ _ _ _ H)
      as (rounds & earlier & req & outcome & _ & Hlog & _ & _ & _
          & (outcome0 & later & Hfirst) & _).
    rewrite Hfirst in Hlog.
    eexists _, outcome0, later. split; [exact Hlog|].
    simpl. rewrite <- app_assoc. reflexivity.
Qed.

(** *** [chat] and the console *)

Lemma execute_tool_uses_printing_spec (blocks : list ContentBlock) :
  forall acc self out,
    execute_tool_uses_printing blocks acc (self, out)
    = (fst (execute_tool_uses blocks acc self),
       (snd (execute_tool_uses blocks acc self), out ++ executing_lines blocks)).
Proof.
  induction blocks as [|b blocks IH]; intros acc self out.
  - simpl. unfold retP, ret, executing_lines. simpl. now rewrite app_nil_r.
  - destruct b as [text|tu|tr|kind]; simpl; try apply IH.
    destruct (execute_tool_total (tool_use_name tu) (tool_use_input tu) self)
      as (text & ts & Htool).
    unfold bindP, print, lift, bind. simpl. rewrite Htool. rewrite IH.
    unfold executing_lines. simpl. rewrite <- app_assoc. reflexivity.
Qed.

Lemma chat_iteration_printing_spec tool_config self out :
  chat_iteration_printing tool_config (self, out)
  = (fst (chat_iteration tool_config self),
     (snd (chat_iteration tool_config self),
      out ++ exchange_lines
               (build_request tool_config self,
                fst (converse (build_request tool_config self) (bedrock self))))).
Proof.
  unfold chat_iteration_printing, chat_iteration, bindP, bind, lift, attempt,
    bedrock_converse, exchange_lines.
  simpl.
  destruct (converse (build_request tool_config self) (bedrock self))
    as [[response|e] ms]; simpl.
  - destruct (message_truthy (response_message response)); simpl;
      destruct (is_tool_use (stopReason response)); simpl;
      unfold retP, ret; simpl; rewrite ?app_nil_r; try reflexivity.
    + rewrite execute_tool_uses_printing_spec.
      destruct (execute_tool_uses (get_content (response_message response)) [] _)
        as [[results|e] self1]; reflexivity.
    + rewrite execute_tool_uses_printing_spec.
      destruct (execute_tool_uses (get_content (response_message response)) [] _)
        as [[results|e] self1]; reflexivity.
  - unfold retP. simpl. now rewrite app_nil_r.
Qed.

(** One pass logs its request with the outcome the service gave. *)
Lemma chat_iteration_log tool_config self :
  service_log (snd (chat_iteration tool_config self))
  = service_log self
    ++ [(build_request tool_config self,
         fst (converse (build_request tool_config self) (bedrock self)))].
Proof.
  destruct (converse (build_request tool_config self) (bedrock self))
    as [[response|e] ms] eqn:E.
  - destruct (is_tool_use (stopReason response)) eqn:Hstop.
    + destruct (chat_iteration_tool_use _ _ _ _ E Hstop)
        as (results & self1 & Hexec & Hiter).
      destruct (execute_tool_uses_fields _ _ _ _ Hexec) as (_ & Hl & _).
      rewrite Hiter. simpl. now rewrite Hl.
    + now rewrite (chat_iteration_done _ _ _ _ E Hstop).
  - now rewrite (chat_iteration_raise _ _ _ _ E).
Qed.

Lemma chat_loop_printing_spec (fuel : nat) :
  forall tool_config self out,
    match chat_loop fuel tool_config self with
    | None => chat_loop_printing fuel tool_config (self, out) = None
    | Some (r, self') =>
        exists sent,
          service_log self' = service_log self ++ sent
          /\ chat_loop_printing fuel tool_config (self, out)
             = Some (r, (self', out ++ flat_map exchange_lines sent))
    end.
Proof.
  induction fuel as [|fuel IH]; intros tool_config self out; [reflexivity|].
  simpl. rewrite chat_iteration_printing_spec.
  pose proof (chat_iteration_log tool_config self) as Hlog.
  destruct (chat_iteration tool_config self) as [[[|returned]|e] self1];
    simpl in *.
  - specialize (IH tool_config self1
                   (out ++ exchange_lines
                             (build_request tool_config self,
                              fst (converse (build_request tool_config self)
                                     (bedrock self))))).
    destruct (chat_loop fuel tool_config self1) as [[r self']|]; [|exact IH].
    destruct IH as (sent & Hsent & Hrun).
    eexists. split.
    + rewrite Hsent, Hlog, <- app_assoc. reflexivity.
    + rewrite Hrun. simpl. rewrite <- app_assoc. reflexivity.
  - eexists. split; [exact Hlog|]. simpl. now rewrite app_nil_r.
  - eexists. split; [exact Hlog|]. simpl. now rewrite app_nil_r.
Qed.

(** X8 -- What [chat] prints.  A call prints one line
    ["  [Executing tool: <name>]"] for each tool-use request of each
    response with stop reason ["tool_use"], in the order of the responses
    and of the requests, and nothing else; the console has no influence on
    what the call returns or does to the agent. *)
Theorem chat_prints_executed_tools fuel user_message self out :
  match chat fuel user_message self with
  | None => chat_printing fuel user_message (self, out) = None
  | Some (r, self') =>
      exists sent,
        service_log self' = service_log self ++ sent
        /\ chat_printing fuel user_message (self, out)
           = Some (r, (self', out ++ flat_map exchange_lines sent))
  end.
Proof.
  rewrite chat_unfold. unfold chat_printing. simpl.
  exact (chat_loop_printing_spec fuel (_format_tools_for_bedrock self)
           (chat_entry user_message self) out).
Qed.

(** *** The loop of [main] *)

Lemma executing_lines_print (blocks : list ContentBlock) :
  Forall is_print (executing_lines blocks).
Proof.
  unfold executing_lines. induction (tool_uses blocks) as [|tu l IH];
    constructor; [exact I | exact IH].
Qed.

Lemma exchange_lines_print (sent : list (Request * PyResult Response)) :
  Forall is_print (flat_map exchange_lines sent).
Proof.
  induction sent as [|[req [response|e]] sent IH]; simpl.
  - constructor.
  - apply Forall_app. split; [|exact IH]. unfold exchange_lines. simpl.
    destruct (is_tool_use (stopReason response));
      [apply executing_lines_print | constructor].
  - exact IH.
Qed.

Lemma printed_only_prints (events : list Event) :
  Forall is_print events -> printed_only events = events.
Proof.
  induction 1 as [|event events Hevent _ IH]; [reflexivity|].
  destruct event; try contradiction. simpl. now rewrite IH.
Qed.

Lemma printed_only_app (a b : list Event) :
  printed_only (a ++ b) = printed_only a ++ printed_only b.
Proof. apply filter_app. Qed.

Lemma prints_no_aclose (events : list Event) :
  Forall is_print events -> ~ In Aclose events.
Proof.
  intros H Hin. rewrite Forall_forall in H. exact (H _ Hin).
Qed.

(** What a call of [chat] from [main] amounts to: the call of the model
    without console, some printed lines after the console, and never an
    exception. *)
Lemma chat_printing_returns fuel user_message st r st' :
  chat_printing fuel user_message st = Some (r, st') ->
  chat fuel user_message (fst st) = Some (r, fst st')
  /\ (exists text, r = Return text)
  /\ exists printed,
      snd st' = snd st ++ printed
      /\ Forall is_print printed
      /\ forall out,
          chat_printing fuel user_message (fst st, out)
          = Some (r, (fst st', out ++ printed)).
Proof.
  destruct st as [self out]. intros H.
  change (chat_loop_printing fuel (_format_tools_for_bedrock self)
            (chat_entry user_message self, out) = Some (r, st')) in H.
  assert (Hany : forall out',
             chat_printing fuel user_message (self, out')
             = chat_loop_printing fuel (_format_tools_for_bedrock self)
                 (chat_entry user_message self, out')) by reflexivity.
  pose proof (chat_loop_printing_spec fuel (_format_tools_for_bedrock self)
                (chat_entry user_message self)) as Hspec.
  cbn [fst snd]. rewrite chat_unfold.
  destruct (chat_loop fuel (_format_tools_for_bedrock self)
              (chat_entry user_message self))
    as [[r0 self0]|] eqn:Hchat.
  - destruct (Hspec out) as (sent & Hlog & Hrun).
    rewrite H in Hrun. inversion Hrun; subst r0 st'. simpl.
    split; [reflexivity|]. split.
    + apply chat_loop_run in Hchat.
      destruct (loop_run_summary _ _ _ _ Hchat)
        as (rounds & earlier & req & outcome & _ & _ & _ & _ & _ & _
            & (_ & Hfinal) & _).
      destruct outcome as [response|e].
      * destruct Hfinal as (_ & Hr & _). eauto.
      * destruct Hfinal as (Hr & _). eauto.
    + exists (flat_map exchange_lines sent).
      split; [reflexivity|]. split; [apply exchange_lines_print|].
      intros out'. rewrite Hany.
      destruct (Hspec out') as (sent' & Hlog' & Hrun').
      rewrite Hlog in Hlog'. apply app_inv_head in Hlog'. subst sent'.
      exact Hrun'.
  - rewrite (Hspec out) in H. discriminate.
Qed.

Lemma chat_printing_none fuel user_message self out out' :
  chat_printing fuel user_message (self, out) = None ->
  chat_printing fuel user_message (self, out') = None.
Proof.
  intros H.
  destruct (chat_printing fuel user_message (self, out')) as [[r st']|] eqn:E;
    [|reflexivity].
  destruct (chat_printing_returns _ _ _ _ _ E) as (_ & _ & printed & _ & _ & Hany).
  simpl in Hany. rewrite Hany in H. discriminate.
Qed.

Lemma quit_not_blank (line : string) : is_quit line = true -> is_blank line = false.
Proof.
  unfold is_quit, is_blank. destruct (strip line); simpl; [discriminate|reflexivity].
Qed.

(** What follows a [quit] line is not read and changes nothing. *)
Lemma main_loop_after_quit fuel (lines after : list string) :
  forall st,
    Exists (fun line => is_quit line = true) lines ->
    main_loop fuel (lines ++ after) st
    = match main_loop fuel lines st with
      | None => None
      | Some (ended, st', rest) => Some (ended, st', rest ++ after)
      end.
Proof.
  induction lines as [|line lines IH]; intros st Hquit;
    [inversion Hquit|].
  simpl.
  destruct (negb (str_truthy (strip line))) eqn:Hblank.
  - apply IH. inversion Hquit as [? ? Hq|? ? Hq]; subst; [|exact Hq].
    apply quit_not_blank in Hq. unfold is_blank in Hq. congruence.
  - destruct (String.eqb (lower (strip line)) "quit") eqn:Hq; [reflexivity|].
    assert (Hrest : Exists (fun line => is_quit line = true) lines).
    { inversion Hquit as [? ? Hq'|? ? Hq']; subst; [|exact Hq'].
      unfold is_quit in Hq'. congruence. }
    destruct (String.eqb (lower (strip line)) "clear"); [now apply IH|].
    destruct (chat_printing fuel (strip line) _) as [[[text|e] st']|];
      [now apply IH | reflexivity | reflexivity].
Qed.

(** The loop ends without an exception, and closes nothing. *)
Lemma main_loop_console fuel (lines : list string) :
  forall st ended st' rest,
    main_loop fuel lines st = Some (ended, st', rest) ->
    ended = Return tt
    /\ exists added,
        snd st' = snd st ++ added /\ ~ In Aclose added.
Proof.
  induction lines as [|line lines IH]; intros st ended st' rest H; simpl in H.
  - inversion H; subst. split; [reflexivity|]. eexists. split; [reflexivity|].
    simpl. intros [Hbad|[]]; discriminate.
  - assert (Hstep : forall st1 extra,
               main_loop fuel lines st1 = Some (ended, st', rest) ->
               snd st1 = snd st ++ Input "You: " (Some line) :: extra ->
               ~ In Aclose extra ->
               ended = Return tt
               /\ exists added, snd st' = snd st ++ added /\ ~ In Aclose added).
    { intros st1 extra Hloop Hst1 Hextra.
      destruct (IH _ _ _ _ Hloop) as (Hended & added & Hadded & Hno).
      split; [exact Hended|].
      exists (Input "You: " (Some line) :: extra ++ added).
      split.
      - rewrite Hadded, Hst1, <- app_assoc. reflexivity.
      - simpl. intros [Hbad|Hin]; [discriminate|].
        apply in_app_or in Hin. tauto. }
    destruct (negb (str_truthy (strip line))).
    + eapply (Hstep _ []); [exact H | reflexivity | simpl; tauto].
    + destruct (String.eqb (lower (strip line)) "quit").
      * inversion H; subst. split; [reflexivity|].
        eexists. split; [reflexivity|]. simpl. intros [Hbad|[]]; discriminate.
      * destruct (String.eqb (lower (strip line)) "clear").
        -- eapply (Hstep _ [Print _]); [exact H | |].
           ++ simpl. rewrite <- app_assoc. reflexivity.
           ++ simpl. intros [Hbad|[]]; discriminate.
        -- destruct (chat_printing fuel (strip line) _) as [[r st1]|] eqn:Hchat;
             [|discriminate].
           destruct (chat_printing_returns _ _ _ _ _ Hchat)
             as (_ & (text & Hr) & printed & Hprinted & Hprints & _).
           subst r. simpl in Hprinted.
           eapply (Hstep _ (printed ++ [Print _])); [exact H | |].
           ++ simpl. rewrite Hprinted, <- !app_assoc. reflexivity.
           ++ intros Hin. apply in_app_or in Hin. destruct Hin as [Hin|Hin].
              ** exact (prints_no_aclose _ Hprints Hin).
              ** simpl in Hin. destruct Hin as [Hbad|[]]; discriminate.
Qed.

Lemma filter_twice {A : Type} (f : A -> bool) (l : list A) :
  filter f (filter f l) = filter f l.
Proof.
  induction l as [|x l IH]; [reflexivity|]. simpl.
  destruct (f x) eqn:E; simpl; rewrite ?E, IH; reflexivity.
Qed.

(** Blank lines change nothing but the prompts. *)
Lemma main_loop_blank_lines fuel (lines : list string) :
  forall st1 st2,
    fst st1 = fst st2 ->
    printed_only (snd st1) = printed_only (snd st2) ->
    option_map loop_view (main_loop fuel lines st1)
    = option_map loop_view (main_loop fuel (filter nonblank lines) st2).
Proof.
  induction lines as [|line lines IH]; intros [self out1] [self2 out2] Hself Hout;
    simpl in Hself, Hout; subst self2.
  - simpl. rewrite !printed_only_app, Hout. reflexivity.
  - simpl. unfold nonblank at 1, is_blank.
    destruct (str_truthy (strip line)) eqn:Hblank; simpl.
    + rewrite Hblank. simpl.
      assert (Hout' : printed_only (out1 ++ [Input "You: " (Some line)])
                      = printed_only (out2 ++ [Input "You: " (Some line)]))
        by (rewrite !printed_only_app, Hout; reflexivity).
      destruct (String.eqb (lower (strip line)) "quit").
      { simpl. rewrite Hout', filter_twice. reflexivity. }
      destruct (String.eqb (lower (strip line)) "clear").
      { apply IH; [reflexivity|]. cbn [snd].
        etransitivity; [apply printed_only_app|].
        rewrite Hout'. symmetry. apply printed_only_app. }
      destruct (chat_printing fuel (strip line)
                  (self, out1 ++ [Input "You: " (Some line)]))
        as [[r st1']|] eqn:Hchat.
      * destruct (chat_printing_returns _ _ _ _ _ Hchat)
          as (_ & (text & Hr) & printed & Hprinted & _ & Hany).
        subst r. simpl in Hprinted, Hany.
        rewrite (Hany (out2 ++ [Input "You: " (Some line)])).
        apply IH; [reflexivity|]. cbn [snd fst].
        rewrite Hprinted.
        rewrite (printed_only_app (_ ++ printed)), (printed_only_app _ printed).
        rewrite Hout'.
        rewrite <- (printed_only_app _ printed), <- printed_only_app.
        reflexivity.
      * rewrite (chat_printing_none _ _ _ _ _ Hchat). reflexivity.
    + apply IH; [reflexivity|]. simpl.
      rewrite printed_only_app. simpl. now rewrite app_nil_r.
Qed.

(** Lines that are no questions are dealt with without the model. *)
Lemma main_loop_commands fuel (lines : list string) :
  forall self out,
    Forall (fun line => is_command line = true) lines ->
    exists self' out' rest,
      main_loop fuel lines (self, out) = Some (Return tt, (self', out'), rest)
      /\ (self' = self \/ self' = clear_history self).
Proof.
  induction lines as [|line lines IH]; intros self out Hall.
  - eexists _, _, _. split; [reflexivity|]. now left.
  - inversion Hall as [|? ? Hline Hrest]; subst.
    unfold is_command, is_blank, is_quit, is_clear in Hline. simpl.
    destruct (negb (str_truthy (strip line))); [now apply IH|].
    destruct (String.eqb (lower (strip line)) "quit").
    { eexists _, _, _. split; [reflexivity|]. now left. }
    destruct (String.eqb (lower (strip line)) "clear"); [|discriminate].
    destruct (IH (clear_history self)
                 ((out ++ [Input "You: " (Some line)])
                  ++ [Print ("Conversation history cleared." ++ newline)%string])
                 Hrest)
      as (self' & out' & rest & Hloop & Hself).
    exists self', out', rest. split; [exact Hloop|].
    right. destruct Hself as [Hself|Hself]; rewrite Hself; reflexivity.
Qed.

Lemma format_tools_same (a b : MCPToolboxAgent) :
  tools a = tools b -> _format_tools_for_bedrock a = _format_tools_for_bedrock b.
Proof. unfold _format_tools_for_bedrock. now intros ->. Qed.

(** The effect of a call on the configuration and on the log. *)
Lemma chat_configuration fuel user_message self r self' :
  chat fuel user_message self = Some (r, self') ->
  mcp_url self' = mcp_url self
  /\ region self' = region self
  /\ model_id self' = model_id self
  /\ tools self' = tools self
  /\ exists sent,
      service_log self' = service_log self ++ sent
      /\ Forall (fun entry =>
                   modelId (fst entry) = model_id self
                   /\ toolConfig (fst entry)
                      = (if config_truthy (_format_tools_for_bedrock self)
                         then Some (_format_tools_for_bedrock self)
                         else None)) sent.
Proof.
  intros H. rewrite chat_unfold in H. apply chat_loop_run in H.
  destruct (loop_run_configuration _ _ _ _ H) as (H1 & H2 & H3 & H4).
  destruct (loop_run_summary _ _ _ _ H)
    as (rounds & earlier & req & outcome & _ & Hlog & _ & _ & Hsent & _).
  repeat split; try assumption.
  exists (earlier ++ [(req, outcome)]). split; [exact Hlog|].
  eapply Forall_impl; [|exact Hsent].
  intros entry (Hmodel & Hconfig & _). split; assumption.
Qed.

(** The loop of [main] keeps the configuration, and all it sends carries
    it. *)
Lemma main_loop_configuration fuel (lines : list string) :
  forall st ended st' rest,
    main_loop fuel lines st = Some (ended, st', rest) ->
    mcp_url (fst st') = mcp_url (fst st)
    /\ region (fst st') = region (fst st)
    /\ model_id (fst st') = model_id (fst st)
    /\ tools (fst st') = tools (fst st)
    /\ exists sent,
        service_log (fst st') = service_log (fst st) ++ sent
        /\ Forall (fun entry =>
                     modelId (fst entry) = model_id (fst st)
                     /\ toolConfig (fst entry)
                        = (if config_truthy (_format_tools_for_bedrock (fst st))
                           then Some (_format_tools_for_bedrock (fst st))
                           else None)) sent.
Proof.
  induction lines as [|line lines IH]; intros [self out] ended st' rest H;
    simpl in H.
  - inversion H; subst. simpl. repeat split.
    exists []. split; [now rewrite app_nil_r | constructor].
  - destruct (negb (str_truthy (strip line))); [exact (IH _ _ _ _ H)|].
    destruct (String.eqb (lower (strip line)) "quit").
    { inversion H; subst. simpl. repeat split.
      exists []. split; [now rewrite app_nil_r | constructor]. }
    destruct (String.eqb (lower (strip line)) "clear"); [exact (IH _ _ _ _ H)|].
    destruct (chat_printing fuel (strip line) _) as [[r st1]|] eqn:Hchat;
      [|discriminate].
    destruct (chat_printing_returns _ _ _ _ _ Hchat)
      as (Hcall & (text & Hr) & _).
    subst r. simpl in Hcall.
    destruct (chat_configuration _ _ _ _ _ Hcall)
      as (H1 & H2 & H3 & H4 & sent & Hlog & Hsent).
    destruct (IH _ _ _ _ H) as (K1 & K2 & K3 & K4 & sent' & Hlog' & Hsent').
    simpl in *.
    rewrite K1, K2, K3, K4, H1, H2, H3, H4. repeat split.
    exists (sent ++ sent'). split.
    + rewrite Hlog', Hlog, <- app_assoc. reflexivity.
    + apply Forall_app. split; [exact Hsent|].
      rewrite H3, (format_tools_same _ _ H4) in Hsent'. exact Hsent'.
Qed.

(** The effect of a call on the history. *)
Lemma chat_history fuel user_message self r self' :
  chat fuel user_message self = Some (r, self') ->
  exists n rounds closing,
    ToolRounds n rounds
    /\ (closing = [] \/ exists assistant, closing = [assistant])
    /\ messages self'
       = messages self ++ user_text_message user_message :: rounds ++ closing.
Proof.
  intros H. rewrite chat_unfold in H. apply chat_loop_run in H.
  destruct (loop_run_summary _ _ _ _ H)
    as (rounds & earlier & req & outcome & Hrounds & _ & _ & _ & _ & _
        & (_ & Hfinal) & _).
  destruct outcome as [response|e].
  - destruct Hfinal as (_ & _ & Hm).
    exists (length earlier), rounds,
      (appended_assistant (response_message response)).
    split; [exact Hrounds|]. split.
    + unfold appended_assistant.
      destruct (message_truthy (response_message response)); eauto.
    + rewrite Hm. simpl. rewrite <- app_assoc. reflexivity.
  - destruct Hfinal as (_ & Hm).
    exists (length earlier), rounds, [].
    split; [exact Hrounds|]. split; [now left|].
    rewrite Hm. simpl. rewrite <- app_assoc, app_nil_r. reflexivity.
Qed.

Lemma conversation_snoc (questions : list string) (history : list Message) :
  Conversation questions history ->
  forall question n rounds closing,
    ToolRounds n rounds ->
    (closing = [] \/ exists assistant, closing = [assistant]) ->
    Conversation (questions ++ [question])
                 (history ++ user_text_message question :: rounds ++ closing).
Proof.
  induction 1 as [|q0 n0 rounds0 closing0 questions rest Hr0 Hc0 Hrest IH];
    intros question n rounds closing Hrounds Hclosing.
  - simpl. rewrite <- (app_nil_r closing).
    econstructor; eauto. constructor.
  - simpl. rewrite <- !app_assoc.
    econstructor; eauto.
Qed.

(** The history the loop of [main] leaves is the conversation since the
    last [clear]. *)
Lemma main_loop_conversation fuel (lines : list string) :
  forall st kept ended st' rest,
    Conversation kept (messages (fst st)) ->
    main_loop fuel lines st = Some (ended, st', rest) ->
    Conversation (questions_kept lines kept) (messages (fst st')).
Proof.
  induction lines as [|line lines IH];
    intros [self out] kept ended st' rest Hkept H; simpl in H.
  - inversion H; subst. exact Hkept.
  - simpl. unfold is_blank, is_quit, is_clear.
    destruct (negb (str_truthy (strip line)));
      [eapply IH; [|exact H]; exact Hkept|].
    destruct (String.eqb (lower (strip line)) "quit").
    { inversion H; subst. exact Hkept. }
    destruct (String.eqb (lower (strip line)) "clear").
    { eapply IH; [|exact H]. simpl. constructor. }
    destruct (chat_printing fuel (strip line) _) as [[r st1]|] eqn:Hchat;
      [|discriminate].
    destruct (chat_printing_returns _ _ _ _ _ Hchat)
      as (Hcall & (text & Hr) & _).
    subst r. simpl in Hcall.
    destruct (chat_history _ _ _ _ _ Hcall)
      as (n & rounds & closing & Hrounds & Hclosing & Hm).
    eapply IH; [|exact H]. simpl. rewrite Hm.
    exact (conversation_snoc _ _ Hkept _ _ _ _ Hrounds Hclosing).
Qed.

Lemma main_loop_commands_fuel fuel (lines : list string) :
  forall st,
    Forall (fun line => is_command line = true) lines ->
    main_loop fuel lines st = main_loop 0 lines st.
Proof.
  induction lines as [|line lines IH]; intros st Hall; [reflexivity|].
  inversion Hall as [|? ? Hline Hrest]; subst.
  unfold is_command, is_blank, is_quit, is_clear in Hline. simpl.
  destruct (negb (str_truthy (strip line))); [now apply IH|].
  destruct (String.eqb (lower (strip line)) "quit"); [reflexivity|].
  destruct (String.eqb (lower (strip line)) "clear"); [now apply IH|discriminate].
Qed.

(** *** [connect] and [main] *)

(** [connect] prints its first line, and its second when all went well;
    the agent it leaves has the listed tools and no history. *)
Lemma connect_spec (new : NewAgent) (out : list Event) :
  match connect new out with
  | (Raise e, out') =>
      out' = out ++ [Print ("Connecting to MCP server at " ++ new_mcp_url new
                            ++ "...")%string]
  | (Return self, out') =>
      out' = out ++ [Print ("Connecting to MCP server at " ++ new_mcp_url new
                            ++ "...")%string;
                     Print ("Connected! Available tools: "
                            ++ repr_names (map tool_name (tools self)))%string]
      /\ mcp_url self = new_mcp_url new
      /\ model_id self = new_model_id new
      /\ region self = new_region new
      /\ bedrock self = new_bedrock new
      /\ messages self = []
      /\ service_log self = []
      /\ tool_rounds self = 0
      /\ exists streams session0 session1,
          sse_client (new_mcp_url new) = Return streams
          /\ client_session streams = Return session0
          /\ initialize session0 = (Return tt, session1)
          /\ list_tools session1 = (Return (tools self), session self)
  end.
Proof.
  unfold connect.
  destruct (sse_client (new_mcp_url new)) as [streams|e] eqn:Hsse; [|reflexivity].
  destruct (client_session streams) as [session0|e] eqn:Henter; [|reflexivity].
  destruct (initialize session0) as [[[]|e] session1] eqn:Hinit; [|reflexivity].
  destruct (list_tools session1) as [[listed|e] session2] eqn:Hlist; [|reflexivity].
  simpl. rewrite <- app_assoc. repeat split.
  exists streams, session0, session1. repeat split; assumption.
Qed.

Lemma main_unfold fuel environ stdin :
  main fuel environ stdin
  = match boto3_client (environ_get environ "AWS_REGION" "us-east-1") with
    | Raise e => Some (mkOutcome (Uncaught e) [] stdin None)
    | Return client =>
        match connect (configured environ client) [] with
        | (Raise e, printed) =>
            Some (mkOutcome (SystemExit 1)
                    (printed
                     ++ [Print ("Failed to connect to MCP server: " ++ str_exc e)%string;
                         Print "Make sure the MCP Toolbox server is running."])
                    stdin None)
        | (Return connected, printed) =>
            match main_loop fuel stdin
                    (connected,
                     printed
                     ++ [Print (newline ++ "Database Agent Ready!")%string;
                         Print ("Type your questions about the database. Type 'quit' to exit, 'clear' to reset history." ++ newline)%string])
            with
            | None => None
            | Some (ended, (self, printed), rest) =>
                match aclose (session self) with
                | Raise e =>
                    Some (mkOutcome (Uncaught e) (printed ++ [Aclose]) rest
                            (Some self))
                | Return _ =>
                    Some (mkOutcome
                            (match ended with
                             | Return _ => Completed
                             | Raise e => Uncaught e
                             end)
                            ((printed ++ [Aclose]) ++ [Print "Goodbye!"]) rest
                            (Some self))
                end
            end
        end
    end.
Proof.
  unfold main, __init__, configured, disconnect.
  destruct (boto3_client (environ_get environ "AWS_REGION" "us-east-1"));
    reflexivity.
Qed.

(** X9 -- When [connect] raises, [main] prints the failure and the hint
    after the line [connect] printed, and exits with status 1: it reads
    nothing from the console, talks to no model and closes nothing, also
    when the transport had been opened before the failure. *)
Theorem failed_connect_exits_with_one fuel environ stdin client e :
  boto3_client (environ_get environ "AWS_REGION" "us-east-1") = Return client ->
  fst (connect (configured environ client) []) = Raise e ->
  main fuel environ stdin
  = Some {| status := SystemExit 1;
            console :=
              [Print ("Connecting to MCP server at "
                      ++ environ_get environ "MCP_URL" "http://localhost:5001/mcp/sse"
                      ++ "...")%string;
               Print ("Failed to connect to MCP server: " ++ str_exc e)%string;
               Print "Make sure the MCP Toolbox server is running."];
            unread := stdin;
            agent := None |}.
Proof.
  intros Hclient Hconnect. rewrite main_unfold, Hclient.
  pose proof (connect_spec (configured environ client) []) as Hspec.
  destruct (connect (configured environ client) []) as [[self|e'] printed];
    simpl in Hconnect; [discriminate|].
  inversion Hconnect; subst e'. rewrite Hspec. reflexivity.
Qed.

(** X10 -- Nothing is read after [quit]: when one of the lines is [quit]
    in any case and with any white space around it, the lines put after
    them stay unread and change nothing of what [main] does. *)
Theorem nothing_is_read_after_quit fuel environ lines after :
  Exists (fun line => is_quit line = true) lines ->
  main fuel environ (lines ++ after)
  = option_map (leaving after) (main fuel environ lines).
Proof.
  intros Hquit. rewrite !main_unfold.
  destruct (boto3_client (environ_get environ "AWS_REGION" "us-east-1"))
    as [client|e]; [|reflexivity].
  destruct (connect (configured environ client) []) as [[self|e] printed];
    [|reflexivity].
  rewrite (main_loop_after_quit fuel lines after _ Hquit).
  destruct (main_loop fuel lines _) as [[[ended [self' printed']] rest]|];
    [|reflexivity].
  destruct (aclose (session self')); reflexivity.
Qed.

(** X11 -- Blank lines are skipped: with or without the lines that are
    empty or white space only, [main] ends the same way, leaves the same
    agent and prints the same; only the prompts differ. *)
Theorem blank_lines_are_skipped fuel environ stdin :
  option_map outcome_view (main fuel environ stdin)
  = option_map outcome_view (main fuel environ (filter nonblank stdin)).
Proof.
  rewrite !main_unfold.
  destruct (boto3_client (environ_get environ "AWS_REGION" "us-east-1"))
    as [client|e].
  2:{ unfold outcome_view. simpl. now rewrite filter_twice. }
  destruct (connect (configured environ client) []) as [[self|e] printed].
  2:{ unfold outcome_view. simpl. now rewrite filter_twice. }
  pose proof (main_loop_blank_lines fuel stdin
                (self, printed
                       ++ [Print (newline ++ "Database Agent Ready!")%string;
                           Print ("Type your questions about the database. Type 'quit' to exit, 'clear' to reset history." ++ newline)%string])
                _ eq_refl eq_refl) as Hsame.
  destruct (main_loop fuel stdin _) as [[[ended [self1 printed1]] rest1]|];
    destruct (main_loop fuel (filter nonblank stdin) _)
      as [[[ended2 [self2 printed2]] rest2]|];
    simpl in Hsame; try discriminate; [|reflexivity].
  inversion Hsame as [[Hended Hself Hprinted Hrest]]. subst ended2 self2.
  unfold outcome_view.
  destruct (aclose (session self1)); simpl;
    rewrite !printed_only_app, Hprinted, Hrest; reflexivity.
Qed.

(** X12 -- The commands and blank lines never reach the model: on lines
    that are all blank, [clear] or [quit], [main] ends without a single
    call of [chat], whatever the fuel, and leaves the agent as [connect]
    made it, with nothing sent and no tool called. *)
Theorem commands_need_no_model fuel environ lines client connected printed :
  Forall (fun line => is_command line = true) lines ->
  boto3_client (environ_get environ "AWS_REGION" "us-east-1") = Return client ->
  connect (configured environ client) [] = (Return connected, printed) ->
  main fuel environ lines = main 0 environ lines
  /\ exists outcome self,
      main fuel environ lines = Some outcome
      /\ agent outcome = Some self
      /\ (self = connected \/ self = clear_history connected)
      /\ service_log self = []
      /\ session self = session connected
      /\ messages self = [].
Proof.
  intros Hall Hclient Hconnect. split.
  - rewrite !main_unfold, Hclient, Hconnect.
    now rewrite (main_loop_commands_fuel fuel lines _ Hall).
  - rewrite main_unfold, Hclient, Hconnect.
    pose proof (connect_spec (configured environ client) []) as Hspec.
    rewrite Hconnect in Hspec.
    destruct Hspec as (_ & _ & _ & _ & _ & Hm & Hl & _).
    destruct (main_loop_commands fuel lines connected
                (printed
                 ++ [Print (newline ++ "Database Agent Ready!")%string;
                     Print ("Type your questions about the database. Type 'quit' to exit, 'clear' to reset history." ++ newline)%string])
                Hall)
      as (self & out & rest & Hloop & Hself).
    rewrite Hloop.
    assert (Hfacts : service_log self = [] /\ session self = session connected
                     /\ messages self = []).
    { destruct Hself as [Hself|Hself]; rewrite Hself; simpl; repeat split;
        assumption. }
    destruct Hfacts as (F1 & F2 & F3).
    destruct (aclose (session self)); eexists _, self;
      (split; [reflexivity|]); simpl; repeat split; assumption.
Qed.

(** X13 -- How [main] ends.  If [main] returns, the connection was
    closed exactly once, as the last thing before the farewell.  It exits
    with a status only when [connect] raised, and then with status 1,
    nothing read and nothing closed.  Once [connect] has returned, the
    connection is closed exactly once and after everything else, however
    the loop ends; the farewell follows when closing returns, and when
    closing raises, that exception leaves [main] without the farewell.  An
    exception from the construction of the client leaves [main] before
    anything is printed or read.  Without a connected agent nothing is
    closed. *)
Theorem main_closes_what_it_opened fuel environ stdin outcome :
  main fuel environ stdin = Some outcome ->
  (status outcome = Completed ->
   exists self before,
     agent outcome = Some self
     /\ aclose (session self) = Return tt
     /\ console outcome = before ++ [Aclose; Print "Goodbye!"]
     /\ ~ In Aclose before)
  /\ (forall code,
        status outcome = SystemExit code ->
        code = 1%Z
        /\ agent outcome = None
        /\ unread outcome = stdin
        /\ ~ In Aclose (console outcome)
        /\ exists client e,
            boto3_client (environ_get environ "AWS_REGION" "us-east-1")
            = Return client
            /\ fst (connect (configured environ client) []) = Raise e)
  /\ (forall self,
        agent outcome = Some self ->
        exists before,
          ~ In Aclose before
          /\ match aclose (session self) with
             | Return _ => console outcome = before ++ [Aclose; Print "Goodbye!"]
             | Raise e =>
                 console outcome = before ++ [Aclose]
                 /\ status outcome = Uncaught e
             end)
  /\ (forall e,
        boto3_client (environ_get environ "AWS_REGION" "us-east-1") = Raise e ->
        status outcome = Uncaught e
        /\ console outcome = []
        /\ unread outcome = stdin
        /\ agent outcome = None)
  /\ (agent outcome = None -> ~ In Aclose (console outcome)).
Proof.
  rewrite main_unfold. intros H.
  destruct (boto3_client (environ_get environ "AWS_REGION" "us-east-1"))
    as [client|e] eqn:Hclient.
  2:{ injection H as <-. cbn [status agent unread console].
      split; [discriminate|]. split; [discriminate|].
      split; [discriminate|]. split.
      - intros e' He'. injection He' as <-. repeat split.
      - intros _ []. }
  pose proof (connect_spec (configured environ client) []) as Hspec.
  destruct (connect (configured environ client) []) as [[self|e] printed]
    eqn:Hconnect.
  2:{ subst printed. injection H as <-.
      cbn [status agent unread console].
      assert (Hnone : ~ In Aclose
                        ([Print ("Connecting to MCP server at "
                                 ++ new_mcp_url (configured environ client)
                                 ++ "...")%string]
                         ++ [Print ("Failed to connect to MCP server: "
                                    ++ str_exc e)%string;
                             Print "Make sure the MCP Toolbox server is running."]))
        by (apply prints_no_aclose; repeat constructor).
      split; [discriminate|]. split.
      - intros code Hcode. injection Hcode as <-. repeat split.
        + exact Hnone.
        + exists client, e. rewrite Hconnect. split; reflexivity.
      - split; [discriminate|]. split; [discriminate|].
        intros _. exact Hnone. }
  destruct Hspec as (Hprinted & _).
  destruct (main_loop fuel stdin _) as [[[ended [self1 printed1]] rest]|]
    eqn:Hloop; [|discriminate].
  destruct (main_loop_console _ _ _ _ _ _ Hloop)
    as (Hended & added & Hadded & Hno).
  simpl in Hadded. subst ended.
  assert (Hbefore : ~ In Aclose printed1).
  { rewrite Hadded, Hprinted. intros Hin.
    apply in_app_or in Hin. destruct Hin as [Hin|Hin]; [|exact (Hno Hin)].
    revert Hin. apply prints_no_aclose. repeat constructor. }
  destruct (aclose (session self1)) as [[]|e] eqn:Hclose;
    injection H as <-; cbn [status agent unread console].
  - split.
    { intros _. exists self1, printed1. rewrite <- app_assoc.
      repeat split; assumption. }
    split; [discriminate|]. split.
    { intros final Hfinal. injection Hfinal as <-. exists printed1.
      split; [exact Hbefore|]. rewrite Hclose, <- app_assoc. reflexivity. }
    split; [discriminate|]. discriminate.
  - split; [discriminate|]. split; [discriminate|]. split.
    { intros final Hfinal. injection Hfinal as <-. exists printed1.
      split; [exact Hbefore|]. rewrite Hclose. split; reflexivity. }
    split; [discriminate|]. discriminate.
Qed.

(** X14 -- The environment configures the whole session.  The agent [main]
    leaves has the address, model identifier and region of the environment
    variables [MCP_URL], [BEDROCK_MODEL_ID] and [AWS_REGION], or the
    defaults; its catalog is the one the tool server listed at [connect],
    whatever was typed; and every request sent in the session carries
    that model identifier and the configuration of that catalog. *)
Theorem main_configures_from_environment fuel environ stdin outcome self :
  main fuel environ stdin = Some outcome ->
  agent outcome = Some self ->
  mcp_url self = environ_get environ "MCP_URL" "http://localhost:5001/mcp/sse"
  /\ model_id self
     = environ_get environ "BEDROCK_MODEL_ID"
         "anthropic.claude-sonnet-4-5-20250929-v1:0"
  /\ region self = environ_get environ "AWS_REGION" "us-east-1"
  /\ (exists streams session0 session1 session2,
        sse_client (mcp_url self) = Return streams
        /\ client_session streams = Return session0
        /\ initialize session0 = (Return tt, session1)
        /\ list_tools session1 = (Return (tools self), session2))
  /\ Forall (fun entry =>
               modelId (fst entry) = model_id self
               /\ toolConfig (fst entry)
                  = (if config_truthy (_format_tools_for_bedrock self)
                     then Some (_format_tools_for_bedrock self)
                     else None)) (service_log self).
Proof.
  rewrite main_unfold. intros H Hagent.
  destruct (boto3_client (environ_get environ "AWS_REGION" "us-east-1"))
    as [client|e].
  2:{ inversion H; subst. discriminate. }
  pose proof (connect_spec (configured environ client) []) as Hspec.
  destruct (connect (configured environ client) []) as [[connected|e] printed].
  2:{ inversion H; subst. discriminate. }
  destruct Hspec as (_ & Hurl & Hmodel & Hregion & _ & _ & Hlog & _
                     & streams & session0 & session1 & Hsse & Henter & Hinit & Hlist).
  destruct (main_loop fuel stdin _) as [[[ended [self1 printed1]] rest]|]
    eqn:Hloop; [|discriminate].
  destruct (main_loop_configuration _ _ _ _ _ _ Hloop)
    as (K1 & K2 & K3 & K4 & sent & Hsent & Hall).
  simpl in K1, K2, K3, K4, Hsent, Hall.
  assert (Hself : self = self1).
  { destruct (aclose (session self1)); inversion H; subst; simpl in Hagent;
      now inversion Hagent. }
  subst self1.
  split; [rewrite K1, Hurl; reflexivity|].
  split; [rewrite K3, Hmodel; reflexivity|].
  split; [rewrite K2, Hregion; reflexivity|].
  split.
  - exists streams, session0, session1, (session connected).
    rewrite K1, K4, Hurl. repeat split; assumption.
  - rewrite Hsent, Hlog, K3, (format_tools_same self connected K4).
    exact Hall.
Qed.

(** X15 -- What the agent remembers when [main] ends is the conversation
    since the last [clear]: its history consists of the questions typed
    since then, stripped of surrounding white space, in order, each as a
    user message followed by the messages of its tool rounds and at most
    one closing assistant message. *)
Theorem main_remembers_since_last_clear fuel environ stdin outcome self :
  main fuel environ stdin = Some outcome ->
  agent outcome = Some self ->
  Conversation (questions_kept stdin []) (messages self).
Proof.
  rewrite main_unfold. intros H Hagent.
  destruct (boto3_client (environ_get environ "AWS_REGION" "us-east-1"))
    as [client|e].
  2:{ inversion H; subst. discriminate. }
  pose proof (connect_spec (configured environ client) []) as Hspec.
  destruct (connect (configured environ client) []) as [[connected|e] printed].
  2:{ inversion H; subst. discriminate. }
  destruct Hspec as (_ & _ & _ & _ & _ & Hm & _).
  destruct (main_loop fuel stdin _) as [[[ended [self1 printed1]] rest]|]
    eqn:Hloop; [|discriminate].
  assert (Hself : self = self1).
  { destruct (aclose (session self1)); inversion H; subst; simpl in Hagent;
      now inversion Hagent. }
  subst self1.
  eapply (main_loop_conversation _ _ _ [] _ (self, printed1)); [|exact Hloop].
  simpl. rewrite Hm. constructor.
Qed.

End FurtherFacts.

(** ** The scripted conversation as an instance of the further theorems *)

Ltac with_outcome call k :=
  let v := eval vm_compute in call in
  lazymatch v with
  | Some ?outcome => k outcome
  end.

(** The scripted conversation keeps the catalog and the model identifier. *)
Lemma chat_keeps_configuration_witness :
  exists r self',
    chat 3 "How many rows in table X?"
      (scripted_agent three_step_script toolbox_tools earlier_history)
    = Some (r, self')
    /\ tools self' = toolbox_tools
    /\ model_id self' = "anthropic.claude-sonnet-4-5-20250929-v1:0"
    /\ exists sent,
        service_log self' = [] ++ sent
        /\ Forall (fun entry =>
                     modelId (fst entry)
                     = "anthropic.claude-sonnet-4-5-20250929-v1:0"
                     /\ toolConfig (fst entry)
                        = Some {| config_tools := Some (map tool_to_spec toolbox_tools) |})
                  sent.
Proof.
  with_run (chat 3 "How many rows in table X?"
              (scripted_agent three_step_script toolbox_tools earlier_history))
    ltac:(fun r s =>
            exists r, s; split; [reflexivity|];
            destruct (chat_keeps_configuration 3 "How many rows in table X?"
                        (scripted_agent three_step_script toolbox_tools
                           earlier_history) r s eq_refl)
              as (_ & _ & Hmodel & Htools & Hsent);
            split; [exact Htools|]; split; [exact Hmodel|]; exact Hsent).
Defined.

(** Its three requests carry a history that grows by one round each. *)
Lemma requests_carry_growing_history_witness :
  exists r self' sent,
    chat 3 "How many rows in table X?"
      (scripted_agent three_step_script toolbox_tools earlier_history)
    = Some (r, self')
    /\ service_log self' = [] ++ sent
    /\ sent <> []
    /\ chained (earlier_history ++ [user_text_message "How many rows in table X?"])
               sent.
Proof.
  with_run (chat 3 "How many rows in table X?"
              (scripted_agent three_step_script toolbox_tools earlier_history))
    ltac:(fun r s =>
            destruct (requests_carry_growing_history 3
                        "How many rows in table X?"
                        (scripted_agent three_step_script toolbox_tools
                           earlier_history) r s eq_refl)
              as (sent & H1 & H2 & H3);
            exists r, s, sent; repeat split; assumption).
Defined.

(** A response cut short while asking for a tool: the tool is not run. *)
Lemma terminal_stop_runs_no_tool_witness :
  converse (build_request (_format_tools_for_bedrock cut_short_agent)
              cut_short_agent) (bedrock cut_short_agent)
  = (Return cut_short_response, [])
  /\ is_tool_use (stopReason cut_short_response) = false
  /\ tool_use_ids (get_content (response_message cut_short_response)) = ["t1"]
  /\ exists self',
      chat_loop 1 (_format_tools_for_bedrock cut_short_agent) cut_short_agent
      = Some (Return "Let me", self')
      /\ session self' = 0
      /\ tool_rounds self' = 0
      /\ messages self'
         = earlier_history ++ [response_message cut_short_response].
Proof.
  split; [reflexivity|]. split; [reflexivity|]. split; [reflexivity|].
  exact (terminal_stop_runs_no_tool 0
           (_format_tools_for_bedrock cut_short_agent) cut_short_agent
           cut_short_response [] eq_refl eq_refl).
Defined.

(** A response that claims tool use and asks for none. *)
Lemma tool_use_without_requests_witness :
  converse (build_request (_format_tools_for_bedrock empty_handed_agent)
              empty_handed_agent) (bedrock empty_handed_agent)
  = (Return empty_handed_response, [Return third_response])
  /\ is_tool_use (stopReason empty_handed_response) = true
  /\ tool_use_ids (get_content (response_message empty_handed_response)) = []
  /\ exists self',
      chat_iteration (_format_tools_for_bedrock empty_handed_agent)
        empty_handed_agent
      = (Return Continue, self')
      /\ messages self'
         = earlier_history
           ++ [response_message empty_handed_response]
           ++ [{| role := Some "user"; content := Some [] |}]
      /\ session self' = 0
      /\ tool_rounds self' = 1.
Proof.
  split; [reflexivity|]. split; [reflexivity|]. split; [reflexivity|].
  exact (tool_use_without_requests
           (_format_tools_for_bedrock empty_handed_agent) empty_handed_agent
           empty_handed_response [Return third_response]
           eq_refl eq_refl eq_refl).
Defined.

(** The second round of the scripted conversation calls two tools. *)
Lemma tool_round_calls_each_request_witness :
  converse (build_request (_format_tools_for_bedrock second_round_agent)
              second_round_agent) (bedrock second_round_agent)
  = (Return second_response, [Return third_response])
  /\ is_tool_use (stopReason second_response) = true
  /\ exists self',
      chat_iteration (_format_tools_for_bedrock second_round_agent)
        second_round_agent
      = (Return Continue, self')
      /\ session self' = 2
      /\ messages self'
         = earlier_history
           ++ [response_message second_response]
           ++ [{| role := Some "user";
                  content :=
                    Some [tool_result_block "t2"
                            "Error executing tool: Unknown tool: drop_table";
                          tool_result_block "t3" "users"] |}].
Proof.
  split; [reflexivity|]. split; [reflexivity|].
  destruct (tool_round_calls_each_request
              (_format_tools_for_bedrock second_round_agent) second_round_agent
              second_response [Return third_response] eq_refl eq_refl)
    as (self' & Hiter & Hsession & _ & Hmessages).
  exists self'. split; [exact Hiter|]. split; [exact Hsession|exact Hmessages].
Defined.

(** The service that always asks for the same tool. *)
Lemma chat_never_returns_from_insistent_service_witness :
  @always_tool_use insistent_bedrock (fun _ => True)
  /\ chat 1000 "How many rows in table X?" insistent_agent = None.
Proof.
  assert (Halways : @always_tool_use insistent_bedrock (fun _ => True)).
  { intros ms _ req. exists first_response, tt. repeat split. }
  split; [exact Halways|].
  exact (chat_never_returns_from_insistent_service (fun _ => True) 1000
           "How many rows in table X?" insistent_agent Halways I).
Defined.

(** Asking again after a throttled request. *)
Lemma retry_after_failure_sends_both_messages_witness :
  converse (build_request (_format_tools_for_bedrock throttled_agent)
              (chat_entry "Are you there?" throttled_agent))
           (bedrock throttled_agent)
  = (Raise throttled, [])
  /\ exists self1,
      chat 1 "Are you there?" throttled_agent
      = Some (Return "Bedrock error: Too many requests, please wait before trying again.",
              self1)
      /\ request_messages
           (build_request (_format_tools_for_bedrock self1)
              (chat_entry "Hello?" self1))
         = earlier_history
           ++ [user_text_message "Are you there?"; user_text_message "Hello?"].
Proof.
  split; [reflexivity|].
  destruct (retry_after_failure_sends_both_messages 0 "Are you there?" "Hello?"
              throttled_agent throttled [] eq_refl)
    as (self1 & Hfirst & _ & Hrequest & _).
  exists self1. split; [exact Hfirst | exact Hrequest].
Defined.

(** The tool server is looked for where it does not listen. *)
Lemma failed_connect_exits_with_one_witness :
  @boto3_client scripted_bedrock toolbox_session (scripted_platform three_step_script)
     (environ_get elsewhere "AWS_REGION" "us-east-1")
  = Return three_step_script
  /\ fst (@connect scripted_bedrock toolbox_session (scripted_platform three_step_script)
            (@configured scripted_bedrock elsewhere three_step_script) [])
     = Raise (Exc "ConnectError" "All connection attempts failed")
  /\ scripted_main three_step_script 5 elsewhere typed_lines
     = Some {| status := SystemExit 1;
               console :=
                 [Print "Connecting to MCP server at http://elsewhere:5001/mcp/sse...";
                  Print "Failed to connect to MCP server: All connection attempts failed";
                  Print "Make sure the MCP Toolbox server is running."];
               unread := typed_lines;
               agent := None |}.
Proof.
  split; [reflexivity|]. split; [reflexivity|].
  exact (@failed_connect_exits_with_one scripted_bedrock toolbox_session (scripted_platform three_step_script)
           5 elsewhere typed_lines three_step_script
           (Exc "ConnectError" "All connection attempts failed")
           eq_refl eq_refl).
Defined.

(** The fourth line typed is [quit]; the fifth is left. *)
Lemma nothing_is_read_after_quit_witness :
  Exists (fun line => is_quit line = true) (firstn 4 typed_lines)
  /\ scripted_main three_step_script 5 [] (firstn 4 typed_lines ++ ["never read"])
     = option_map (leaving ["never read"])
         (scripted_main three_step_script 5 [] (firstn 4 typed_lines)).
Proof.
  assert (Hquit : Exists (fun line => is_quit line = true) (firstn 4 typed_lines)).
  { simpl. do 3 apply Exists_cons_tl. apply Exists_cons_hd. reflexivity. }
  split; [exact Hquit|].
  exact (@nothing_is_read_after_quit scripted_bedrock toolbox_session (scripted_platform three_step_script)
           5 [] (firstn 4 typed_lines) ["never read"] Hquit).
Defined.

(** A session of commands and blank lines. *)
Lemma commands_need_no_model_witness :
  Forall (fun line => is_command line = true) command_lines
  /\ scripted_main three_step_script 5 [] command_lines
     = scripted_main three_step_script 0 [] command_lines
  /\ exists outcome self,
      scripted_main three_step_script 5 [] command_lines = Some outcome
      /\ agent outcome = Some self
      /\ service_log self = []
      /\ session self = 0
      /\ messages self = [].
Proof.
  assert (Hall : Forall (fun line => is_command line = true) command_lines)
    by (repeat (constructor; [reflexivity|]); constructor).
  split; [exact Hall|].
  destruct (@commands_need_no_model scripted_bedrock toolbox_session (scripted_platform three_step_script)
              5 [] command_lines three_step_script _ _ Hall eq_refl eq_refl)
    as (Hfuel & outcome & self & Hmain & Hagent & _ & Hlog & Hsession & Hmessages).
  split; [exact Hfuel|].
  exists outcome, self. repeat split; assumption.
Defined.

(** The typed session ends with the connection closed and the farewell. *)
Lemma main_closes_what_it_opened_witness :
  (exists outcome,
      scripted_main three_step_script 5 [] typed_lines = Some outcome
      /\ status outcome = Completed
      /\ exists self before,
          agent outcome = Some self
          /\ @aclose scripted_bedrock toolbox_session (scripted_platform three_step_script) (session self)
             = Return tt
          /\ console outcome = before ++ [Aclose; Print "Goodbye!"]
          /\ ~ In Aclose before)
  /\ (exists outcome self before,
        @main scripted_bedrock toolbox_session
          (unclosable_platform three_step_script) 5 [] typed_lines
        = Some outcome
        /\ agent outcome = Some self
        /\ ~ In Aclose before
        /\ console outcome = before ++ [Aclose]
        /\ status outcome = Uncaught close_failure).
Proof.
  split.
  - with_outcome (scripted_main three_step_script 5 [] typed_lines)
      ltac:(fun outcome =>
              exists outcome; split; [reflexivity|]; split; [reflexivity|];
              exact (proj1 (@main_closes_what_it_opened scripted_bedrock toolbox_session (scripted_platform three_step_script)
                              5 [] typed_lines outcome eq_refl) eq_refl)).
  - with_outcome (@main scripted_bedrock toolbox_session
                    (unclosable_platform three_step_script) 5 [] typed_lines)
      ltac:(fun outcome =>
              lazymatch outcome with
              | mkOutcome _ _ _ (Some ?self) =>
                  destruct (proj1 (proj2 (proj2
                              (@main_closes_what_it_opened scripted_bedrock toolbox_session
                                 (unclosable_platform three_step_script)
                                 5 [] typed_lines outcome eq_refl)))
                              self eq_refl)
                    as (before & Hbefore & Hconsole & Hstatus);
                  exists outcome, self, before;
                  split; [reflexivity|]; split; [reflexivity|];
                  split; [exact Hbefore|]; split; [exact Hconsole|];
                  exact Hstatus
              end).
Defined.

(** The typed session under another model identifier. *)
Lemma main_configures_from_environment_witness :
  exists outcome self,
    scripted_main three_step_script 5 other_model typed_lines = Some outcome
    /\ agent outcome = Some self
    /\ mcp_url self = "http://localhost:5001/mcp/sse"
    /\ model_id self = "anthropic.claude-3-haiku-20240307-v1:0"
    /\ region self = "us-east-1"
    /\ service_log self <> []
    /\ Forall (fun entry =>
                 modelId (fst entry) = model_id self
                 /\ toolConfig (fst entry)
                    = (if config_truthy (_format_tools_for_bedrock self)
                       then Some (_format_tools_for_bedrock self)
                       else None)) (service_log self).
Proof.
  with_outcome (scripted_main three_step_script 5 other_model typed_lines)
    ltac:(fun outcome =>
            lazymatch outcome with
            | {| agent := Some ?self |} =>
                destruct (@main_configures_from_environment scripted_bedrock toolbox_session (scripted_platform three_step_script)
                            5 other_model typed_lines outcome self
                            eq_refl eq_refl)
                  as (H1 & H2 & H3 & _ & H5);
                exists outcome, self;
                split; [reflexivity|]; split; [reflexivity|];
                split; [exact H1|]; split; [exact H2|]; split; [exact H3|];
                split; [discriminate | exact H5]
            end).
Defined.

(** A session of two questions with a [clear] between them. *)
Lemma main_remembers_since_last_clear_witness :
  exists outcome self,
    scripted_main three_step_script 5 []
      [" How many rows in table X?"; "clear"; "And now? "; "quit"]
    = Some outcome
    /\ agent outcome = Some self
    /\ questions_kept
         [" How many rows in table X?"; "clear"; "And now? "; "quit"] []
       = ["And now?"]
    /\ Conversation ["And now?"] (messages self).
Proof.
  with_outcome (scripted_main three_step_script 5 []
                  [" How many rows in table X?"; "clear"; "And now? "; "quit"])
    ltac:(fun outcome =>
            lazymatch outcome with
            | {| agent := Some ?self |} =>
                exists outcome, self;
                split; [reflexivity|]; split; [reflexivity|];
                split; [reflexivity|];
                exact (@main_remembers_since_last_clear scripted_bedrock toolbox_session (scripted_platform three_step_script)
                         5 []
                         [" How many rows in table X?"; "clear"; "And now? "; "quit"]
                         outcome self eq_refl eq_refl)
            end).
Defined.
